(** * weblogic_check: the exporter's collector, embedded and verified

    A shallow embedding of [main.go]: the basic-auth round tripper, the
    metric descriptors built by [NewProcessCollector], and the scrape
    routine [Collect].  Go packages the program calls into ([net/http],
    [encoding/json], [gopsutil/process], [prometheus]) appear as small
    modules carrying the part of their interface the program uses; what
    they read from the outside (the network, the process table) is a
    [World] the scrape is run against. *)

From Stdlib Require Import ZArith String Ascii List Lia.
From Stdlib Require Import DecimalString DecimalZ DecimalPos.
From Stdlib Require Import Floats.SpecFloat.
From stdpp Require Import gmap strings list.

Open Scope string_scope.
Open Scope list_scope.
Open Scope Z_scope.

(** ** Go values *)

(** A Go [error], kept by its message ([err.Error()]). *)
Definition error : Type := string.

(** The [(value, err)] pair a fallible Go call returns. *)
Inductive res (A : Type) : Type :=
| Val (a : A)
| Err (e : error).
Arguments Val {A} a.
Arguments Err {A} e.

(** [float64]: IEEE binary64 datum.  The program writes only the
    constants [0] and [1]. *)
Definition float64 : Type := spec_float.
Definition f64_0 : float64 := S754_zero false.
Definition f64_1 : float64 := S754_finite false 4503599627370496 (-52).

(** [[]byte(s)]: the bytes of a string, each as an integer in [0, 256). *)
Definition bytes_of_string (s : string) : list Z :=
  map (fun a => Z.of_N (N_of_ascii a)) (list_ascii_of_string s).

(** [fmt.Sprintf("%d", n)]: signed decimal rendering. *)
Definition Sprintf_d (n : Z) : string := NilZero.string_of_int (Z.to_int n).

(** [slices.Contains(s, v)]. *)
Fixpoint slices_Contains (s : list string) (v : string) : bool :=
  match s with
  | [] => false
  | x :: rest => if String.eqb v x then true else slices_Contains rest v
  end.

(** ** unicode/utf8 *)

Module utf8.

Definition byte (a : ascii) : Z := Z.of_N (N_of_ascii a).

(** A continuation byte, [10xxxxxx]. *)
Definition continuation (b : Z) : bool := (128 <=? b) && (b <=? 191).

(** [utf8.ValidString]: the text is a sequence of well-formed UTF-8
    encodings.  The first byte of an encoding fixes its length and the
    range of the second byte (no overlong forms, no surrogates, nothing
    above U+10FFFF); the bytes after the second are continuation bytes. *)
Fixpoint ValidString (s : string) : bool :=
  match s with
  | EmptyString => true
  | String a0 rest =>
      let b0 := byte a0 in
      if b0 <? 128 then ValidString rest
      else if (194 <=? b0) && (b0 <=? 223) then
        match rest with
        | String a1 r1 => continuation (byte a1) && ValidString r1
        | _ => false
        end
      else if (224 <=? b0) && (b0 <=? 239) then
        match rest with
        | String a1 (String a2 r2) =>
            let lo := if b0 =? 224 then 160 else 128 in
            let hi := if b0 =? 237 then 159 else 191 in
            (lo <=? byte a1) && (byte a1 <=? hi) &&
            continuation (byte a2) && ValidString r2
        | _ => false
        end
      else if (240 <=? b0) && (b0 <=? 244) then
        match rest with
        | String a1 (String a2 (String a3 r3)) =>
            let lo := if b0 =? 240 then 144 else 128 in
            let hi := if b0 =? 244 then 143 else 191 in
            (lo <=? byte a1) && (byte a1 <=? hi) &&
            continuation (byte a2) && continuation (byte a3) && ValidString r3
        | _ => false
        end
      else false
  end.

End utf8.

(** ** encoding/base64 *)

Module base64.

Definition encodeStd : string :=
  "ABCDEFGHIJKLMNOPQRSTUVWXYZabcdefghijklmnopqrstuvwxyz0123456789+/".

Definition StdPadding : ascii := "="%char.

(** [enc.encode[i]] *)
Definition encode_at (i : Z) : ascii :=
  match String.get (Z.to_nat i) encodeStd with
  | Some a => a
  | None => "000"%char
  end.

(** [Encoding.Encode] for [StdEncoding]: three source bytes make a
    24-bit value that is cut into four 6-bit digits; a remainder of one
    or two bytes is padded. *)
Fixpoint Encode (src : list Z) : string :=
  match src with
  | [] => ""
  | [a] =>
      let val := Z.shiftl a 16 in
      String (encode_at (Z.land (Z.shiftr val 18) 63))
        (String (encode_at (Z.land (Z.shiftr val 12) 63))
           (String StdPadding (String StdPadding "")))
  | [a; b] =>
      let val := Z.lor (Z.shiftl a 16) (Z.shiftl b 8) in
      String (encode_at (Z.land (Z.shiftr val 18) 63))
        (String (encode_at (Z.land (Z.shiftr val 12) 63))
           (String (encode_at (Z.land (Z.shiftr val 6) 63))
              (String StdPadding "")))
  | a :: b :: c :: rest =>
      let val := Z.lor (Z.lor (Z.shiftl a 16) (Z.shiftl b 8)) c in
      String (encode_at (Z.land (Z.shiftr val 18) 63))
        (String (encode_at (Z.land (Z.shiftr val 12) 63))
           (String (encode_at (Z.land (Z.shiftr val 6) 63))
              (String (encode_at (Z.land val 63)) (Encode rest))))
  end.

(** [base64.StdEncoding.EncodeToString] *)
Definition StdEncoding_EncodeToString (src : list Z) : string := Encode src.

(** Specification (RFC 4648, section 4): the value of a base64 digit is
    its place in the alphabet. *)
Fixpoint index_from (i : Z) (a : ascii) (s : string) : option Z :=
  match s with
  | EmptyString => None
  | String b rest => if Ascii.eqb a b then Some i else index_from (i + 1) a rest
  end.

Definition digit_of (a : ascii) : option Z := index_from 0 a encodeStd.

(** Specification (RFC 4648, section 4): reading a base64 text back.
    Four digits give three bytes; a last group ending in one or two
    padding characters gives two bytes or one. *)
Fixpoint Decode (s : string) : option (list Z) :=
  match s with
  | EmptyString => Some []
  | String c0 (String c1 (String c2 (String c3 rest))) =>
      match digit_of c0, digit_of c1 with
      | Some v0, Some v1 =>
          let b0 := v0 * 4 + v1 / 16 in
          if Ascii.eqb c3 StdPadding then
            match rest with
            | EmptyString =>
                if Ascii.eqb c2 StdPadding then Some [b0]
                else match digit_of c2 with
                     | Some v2 => Some [b0; v1 mod 16 * 16 + v2 / 4]
                     | None => None
                     end
            | _ => None
            end
          else
            match digit_of c2, digit_of c3, Decode rest with
            | Some v2, Some v3, Some bytes =>
                Some (b0 :: (v1 mod 16 * 16 + v2 / 4) :: (v2 mod 4 * 64 + v3) :: bytes)
            | _, _, _ => None
            end
      | _, _ => None
      end
  | _ => None
  end.

End base64.

(** ** net/http *)

Module http.

(** [http.Header] is [map[string][]string]. *)
Record Request : Type := {
  Method : string;
  URL : string;
  Header : gmap string (list string)
}.

Record Response : Type := {
  Status : string;
  StatusCode : Z;
  Body : string
}.

Definition StatusOK : Z := 200.

(** [Header.Set(key, value)] replaces whatever values [key] had by the
    single [value].  The one key the program sets, [Authorization], is
    already in canonical MIME form, so the key is used as given. *)
Definition Header_Set (h : gmap string (list string)) (key value : string)
  : gmap string (list string) :=
  <[key := [value]]> h.

(** [Header.Get(key)]: the first value of [key], or the empty string. *)
Definition Header_Get (h : gmap string (list string)) (key : string) : string :=
  match h !! key with
  | Some (v :: _) => v
  | _ => ""
  end.

End http.

(** ** gopsutil/process *)

Module process.

(** A process handle: its id ([int32]) and what [CmdlineSlice()]
    returns for it. *)
Record Process : Type := {
  Pid : Z;
  CmdlineSlice : res (list string)
}.

End process.

(** ** The program's data *)

(** ServerRuntime represents a WebLogic server runtime from the REST API *)
Record ServerRuntime : Type := {
  Name : string;
  State : string
}.

Record ServerRuntimesBody : Type := {
  Items : list ServerRuntime
}.

(** ServerRuntimesResponse represents the JSON response from the
    serverRuntimes endpoint *)
Record ServerRuntimesResponse : Type := {
  Body : ServerRuntimesBody
}.

(** ** The outside of the program *)

(** Every text of the items is valid UTF-8. *)
Definition valid_items (items : list ServerRuntime) : bool :=
  forallb (fun server => utf8.ValidString (Name server) &&
                         utf8.ValidString (State server)) items.

(** What one scrape observes: the default transport's answer to a
    request, the JSON decoder's reading of a response body, and the
    process table.  The texts the decoder gives are valid UTF-8
    ([encoding/json] puts U+FFFD in the place of what is not); the
    arguments of a process are the bytes the system has for them, valid
    UTF-8 or not. *)
Record World : Type := {
  http_DefaultTransport : http.Request -> res http.Response;
  json_Decode : string -> res ServerRuntimesResponse;
  process_Processes : res (list process.Process);
  json_Decode_valid :
    forall body, match json_Decode body with
                 | Val runtimes => valid_items (Items (Body runtimes)) = true
                 | Err _ => True
                 end
}.

(** [http.RoundTripper], as the method value it carries. *)
Definition RoundTripper : Type := World -> http.Request -> res http.Response.

Record Client : Type := {
  Transport : RoundTripper;
  Timeout : Z
}.

Definition Second : Z := 1000000000.

(** [Client.Get]: one GET request, no headers of its own, handed
    to the client's transport.  The answer of that one round trip is
    taken as the result of the call: the further round trips by which
    [net/http] follows a redirect are not modelled. *)
Definition Client_Get (cl : Client) (w : World) (url : string) : res http.Response :=
  Transport cl w {| http.Method := "GET"; http.URL := url; http.Header := ∅ |}.

(** ** prometheus descriptors and samples *)

Module prometheus.

Record Desc : Type := {
  fqName : string;
  help : string;
  variableLabels : list string;
  constLabels : list (string * string)
}.

Definition NewDesc (fqName help : string) (variableLabels : list string)
    (constLabels : list (string * string)) : Desc :=
  {| fqName := fqName; help := help;
     variableLabels := variableLabels; constLabels := constLabels |}.

Inductive ValueType : Type := CounterValue | GaugeValue | UntypedValue.

(** A constant metric: one sample of the series its descriptor names. *)
Record Metric : Type := {
  desc : Desc;
  valType : ValueType;
  val : float64;
  labelValues : list string
}.

End prometheus.

(** ** Effects of a scrape *)

(** What a scrape has written so far: the samples sent on the channel
    [ch], in order, and the lines given to the logger. *)
Record Output : Type := {
  ch : list prometheus.Metric;
  logged : list string
}.

Definition start : Output := {| ch := []; logged := [] |}.

(** How a computation stops: it returns, or it panics; either way with
    what it has written by then, for a panic takes back nothing that was
    sent or logged. *)
Inductive Run (A : Type) : Type :=
| Ok (a : A) (o : Output)
| Panic (msg : string) (o : Output).
Arguments Ok {A} a o.
Arguments Panic {A} msg o.

(** A computation that writes to the output and may panic. *)
Definition Eff (A : Type) : Type := Output -> Run A.

#[global] Instance Eff_ret : MRet Eff := fun A a o => Ok a o.

#[global] Instance Eff_bind : MBind Eff := fun A B f m o =>
  match m o with
  | Ok a o' => f a o'
  | Panic msg o' => Panic msg o'
  end.

(** What a computation has written when it stops. *)
Definition output_of {A : Type} (r : Run A) : Output :=
  match r with
  | Ok _ o => o
  | Panic _ o => o
  end.

(** [ch <- m] *)
Definition send (m : prometheus.Metric) : Eff unit :=
  fun o => Ok tt {| ch := ch o ++ [m]; logged := logged o |}.

(** [log.Printf], given the formatted message. *)
Definition log_Printf (line : string) : Eff unit :=
  fun o => Ok tt {| ch := ch o; logged := logged o ++ [line] |}.

Definition panic {A : Type} (msg : string) : Eff A := fun o => Panic msg o.

(** [prometheus.MustNewConstMetric]: the library's [validateLabelValues]
    wants one label value per variable label of the descriptor and every
    label value valid UTF-8; [MustNewConstMetric] panics on its error. *)
Definition MustNewConstMetric (d : prometheus.Desc) (vt : prometheus.ValueType)
    (value : float64) (labelValues : list string) : Eff prometheus.Metric :=
  if negb (length labelValues =? length (prometheus.variableLabels d))%nat
  then panic "inconsistent label cardinality"
  else if negb (forallb utf8.ValidString labelValues)
  then panic "label value is not valid UTF-8"
  else mret {| prometheus.desc := d; prometheus.valType := vt;
               prometheus.val := value; prometheus.labelValues := labelValues |}.

(** ** main.go *)

(** basicAuthTransport adds basic authentication to HTTP requests *)
Module basicAuthTransport.

Record t : Type := {
  username : string;
  password : string
}.

(** [RoundTrip]: the request, its [Authorization] header set, goes to the
    default transport. *)
Definition RoundTrip (t : t) : RoundTripper := fun w req =>
  let auth := username t +:+ ":" +:+ password t in
  let encoded := base64.StdEncoding_EncodeToString (bytes_of_string auth) in
  let req' :=
    {| http.Method := http.Method req;
       http.URL := http.URL req;
       http.Header := http.Header_Set (http.Header req) "Authorization"
                        ("Basic " +:+ encoded) |} in
  http_DefaultTransport w req'.

End basicAuthTransport.

(** ProcessCollector collects metrics for a specific WebLogic server *)
Record ProcessCollector : Type := {
  adminURL : string;
  username : string;
  password : string;
  serverName : string;
  client : Client;
  adminUpDesc : prometheus.Desc;
  serverStatusDesc : prometheus.Desc;
  processArgDesc : prometheus.Desc
}.

(** NewProcessCollector initializes a new ProcessCollector *)
Definition NewProcessCollector (adminURL username password serverName : string)
  : ProcessCollector :=
  let client :=
    {| Transport :=
         basicAuthTransport.RoundTrip
           {| basicAuthTransport.username := username;
              basicAuthTransport.password := password |};
       Timeout := 10 * Second |} in
  {| adminURL := adminURL;
     username := username;
     password := password;
     serverName := serverName;
     client := client;
     adminUpDesc :=
       prometheus.NewDesc
         "weblogic_admin_server_up"
         "Whether the WebLogic admin server is up (1 = up, 0 = down)"
         [] [];
     serverStatusDesc :=
       prometheus.NewDesc
         "weblogic_server_up"
         "Whether the specified WebLogic server is up (1 = RUNNING, 0 = otherwise)"
         ["server_name"] [];
     processArgDesc :=
       prometheus.NewDesc
         "process_arg"
         "Command-line arguments of the WebLogic process"
         ["server_name"; "pid"; "index"; "value"] [] |}.

(** Describe sends the metric descriptors to Prometheus *)
Definition Describe (c : ProcessCollector) : list prometheus.Desc :=
  [adminUpDesc c; serverStatusDesc c; processArgDesc c].

(** The loop over [runtimes.Body.Items]: at the first entry named like
    the configured server one sample is sent and the loop is left; the
    result is [serverFound]. *)
Fixpoint Collect_items (c : ProcessCollector) (items : list ServerRuntime) : Eff bool :=
  match items with
  | [] => mret false
  | server :: rest =>
      if String.eqb (Name server) (serverName c) then
        let value := if String.eqb (State server) "RUNNING" then f64_1 else f64_0 in
        m ← MustNewConstMetric (serverStatusDesc c) prometheus.GaugeValue value
              [Name server];
        send m;;
        mret true
      else Collect_items c rest
  end.

(** The loop [for i, arg := range cmdline], entered at index [i]. *)
Fixpoint Collect_args (c : ProcessCollector) (pid : string) (i : Z)
    (cmdline : list string) : Eff unit :=
  match cmdline with
  | [] => mret tt
  | arg :: rest =>
      m ← MustNewConstMetric (processArgDesc c) prometheus.GaugeValue f64_1
            [serverName c; pid; Sprintf_d i; arg];
      send m;;
      Collect_args c pid (i + 1) rest
  end.

(** The body of the loop over processes. *)
Definition Collect_process (c : ProcessCollector) (p : process.Process) : Eff unit :=
  match process.CmdlineSlice p with
  | Err _ => mret tt
  | Val cmdline =>
      if slices_Contains cmdline ("-Dweblogic.Name=" +:+ serverName c) then
        let pid := Sprintf_d (process.Pid p) in
        Collect_args c pid 0 cmdline
      else mret tt
  end.

(** The loop [for _, p := range processes]. *)
Fixpoint Collect_processes (c : ProcessCollector) (processes : list process.Process)
  : Eff unit :=
  match processes with
  | [] => mret tt
  | p :: rest => Collect_process c p;; Collect_processes c rest
  end.

(** Collect gathers and sends the metrics to Prometheus *)
Definition Collect (c : ProcessCollector) (w : World) : Eff unit :=
  match Client_Get (client c) w
          (adminURL c +:+ "/management/weblogic/latest/domainRuntime/serverRuntimes") with
  | Err err =>
      log_Printf ("Failed to connect to admin server: " +:+ err);;
      m ← MustNewConstMetric (adminUpDesc c) prometheus.GaugeValue f64_0 [];
      send m
  | Val resp =>
      if negb (http.StatusCode resp =? http.StatusOK) then
        log_Printf ("Admin server returned status: " +:+ http.Status resp);;
        m ← MustNewConstMetric (adminUpDesc c) prometheus.GaugeValue f64_0 [];
        send m
      else
        m ← MustNewConstMetric (adminUpDesc c) prometheus.GaugeValue f64_1 [];
        send m;;
        match json_Decode w (http.Body resp) with
        | Err err => log_Printf ("Failed to parse server runtimes: " +:+ err)
        | Val runtimes =>
            serverFound ← Collect_items c (Items (Body runtimes));
            (if negb serverFound
             then log_Printf ("Server " +:+ serverName c +:+ " not found in domain")
             else mret tt);;
            match process_Processes w with
            | Err err => log_Printf ("Failed to retrieve processes: " +:+ err)
            | Val processes => Collect_processes c processes
            end
        end
  end.

(** The samples a scrape leaves on the channel.  A scrape that panics
    leaves those it had sent before. *)
Definition scrape (c : ProcessCollector) (w : World) : option (list prometheus.Metric) :=
  match Collect c w start with
  | Ok _ o => Some (ch o)
  | Panic _ o => Some (ch o)
  end.

(** The GET a scrape starts with. *)
Definition fetch (c : ProcessCollector) (w : World) : res http.Response :=
  Client_Get (client c) w
    (adminURL c +:+ "/management/weblogic/latest/domainRuntime/serverRuntimes").

(** The same world with another process table. *)
Definition with_processes (w : World) (ps : res (list process.Process)) : World :=
  {| http_DefaultTransport := http_DefaultTransport w;
     json_Decode := json_Decode w;
     process_Processes := ps;
     json_Decode_valid := json_Decode_valid w |}.

(** ** Reading the channel *)

(** The series a sample belongs to, by the name of its descriptor. *)
Definition series (m : prometheus.Metric) : string :=
  prometheus.fqName (prometheus.desc m).

Definition in_series (name : string) (m : prometheus.Metric) : bool :=
  String.eqb (series m) name.

(** The samples of one series, in the order they were sent. *)
Definition samples_of (name : string) (l : list prometheus.Metric)
  : list prometheus.Metric :=
  List.filter (in_series name) l.

(** The samples [Collect] builds, by descriptor. *)
Definition admin_up_sample (c : ProcessCollector) (v : float64) : prometheus.Metric :=
  {| prometheus.desc := adminUpDesc c;
     prometheus.valType := prometheus.GaugeValue;
     prometheus.val := v;
     prometheus.labelValues := [] |}.

Definition server_up_sample (c : ProcessCollector) (server : ServerRuntime)
  : prometheus.Metric :=
  {| prometheus.desc := serverStatusDesc c;
     prometheus.valType := prometheus.GaugeValue;
     prometheus.val := if String.eqb (State server) "RUNNING" then f64_1 else f64_0;
     prometheus.labelValues := [Name server] |}.

Definition process_arg_sample (c : ProcessCollector) (pid : string) (i : Z)
    (arg : string) : prometheus.Metric :=
  {| prometheus.desc := processArgDesc c;
     prometheus.valType := prometheus.GaugeValue;
     prometheus.val := f64_1;
     prometheus.labelValues := [serverName c; pid; Sprintf_d i; arg] |}.

(** Specification of the process inspector, one process at a time: a
    readable argument vector holding the marker token gives one sample
    per position; any other process gives none. *)
Definition process_arg_samples (c : ProcessCollector) (p : process.Process)
  : list prometheus.Metric :=
  match process.CmdlineSlice p with
  | Val cmdline =>
      if bool_decide (("-Dweblogic.Name=" +:+ serverName c) ∈ cmdline)
      then imap (fun i arg =>
                   process_arg_sample c (Sprintf_d (process.Pid p)) (Z.of_nat i) arg)
             cmdline
      else []
  | Err _ => []
  end.

(** The labels of the sample for [arg] are valid UTF-8: the server name
    and the argument are (the pid and the index are decimal numbers). *)
Definition label_ok (c : ProcessCollector) (arg : string) : bool :=
  utf8.ValidString (serverName c) && utf8.ValidString arg.

(** The arguments the loop over a command line gets through before
    [MustNewConstMetric] panics: those before the first whose labels are
    not valid UTF-8. *)
Fixpoint sendable (c : ProcessCollector) (cmdline : list string) : list string :=
  match cmdline with
  | [] => []
  | arg :: rest => if label_ok c arg then arg :: sendable c rest else []
  end.

(** Specification of the process inspector with its panic, one process
    at a time: the samples sent for the process, and whether the loop
    panics in it. *)
Definition process_sent (c : ProcessCollector) (p : process.Process)
  : list prometheus.Metric :=
  match process.CmdlineSlice p with
  | Val cmdline =>
      if bool_decide (("-Dweblogic.Name=" +:+ serverName c) ∈ cmdline)
      then imap (fun i arg =>
                   process_arg_sample c (Sprintf_d (process.Pid p)) (Z.of_nat i) arg)
             (sendable c cmdline)
      else []
  | Err _ => []
  end.

Definition process_panics (c : ProcessCollector) (p : process.Process) : bool :=
  match process.CmdlineSlice p with
  | Val cmdline =>
      bool_decide (("-Dweblogic.Name=" +:+ serverName c) ∈ cmdline) &&
      negb (forallb (label_ok c) cmdline)
  | Err _ => false
  end.

(** The same for the table: the loop stops at the first process it
    panics in. *)
Fixpoint table_sent (c : ProcessCollector) (processes : list process.Process)
  : list prometheus.Metric :=
  match processes with
  | [] => []
  | p :: rest =>
      process_sent c p ++ if process_panics c p then [] else table_sent c rest
  end.

Fixpoint table_panics (c : ProcessCollector) (processes : list process.Process)
  : bool :=
  match processes with
  | [] => false
  | p :: rest => process_panics c p || table_panics c rest
  end.

(** A process the loop passes without a panic, for a server of this
    name: if its command line is readable and holds the marker token,
    the server name and all its arguments are valid UTF-8. *)
Definition labels_valid (name : string) (p : process.Process) : Prop :=
  forall args,
    process.CmdlineSlice p = Val args ->
    ("-Dweblogic.Name=" +:+ name) ∈ args ->
    utf8.ValidString name = true /\
    Forall (fun arg => utf8.ValidString arg = true) args.

(** How a scrape stops. *)
Definition finish (panics : bool) (o : Output) : Run unit :=
  if panics then Panic "label value is not valid UTF-8" o else Ok tt o.

(** Specification of the search of the items: the first entry named like
    the configured server. *)
Definition first_named (name : string) (items : list ServerRuntime)
  : option ServerRuntime :=
  List.find (fun server => String.eqb (Name server) name) items.

(** Specification of a scrape: the samples, in order, by the outcome of
    each step. *)
Definition collected (c : ProcessCollector) (w : World) : list prometheus.Metric :=
  match fetch c w with
  | Err _ => [admin_up_sample c f64_0]
  | Val resp =>
      if http.StatusCode resp =? 200 then
        admin_up_sample c f64_1 ::
          match json_Decode w (http.Body resp) with
          | Err _ => []
          | Val runtimes =>
              match first_named (serverName c) (Items (Body runtimes)) with
              | Some server => [server_up_sample c server]
              | None => []
              end ++
              match process_Processes w with
              | Err _ => []
              | Val processes => table_sent c processes
              end
          end
      else [admin_up_sample c f64_0]
  end.

(** Specification of a scrape: whether it panics.  Only the process
    inspector can. *)
Definition scrape_panics (c : ProcessCollector) (w : World) : bool :=
  match fetch c w with
  | Err _ => false
  | Val resp =>
      if http.StatusCode resp =? 200 then
        match json_Decode w (http.Body resp), process_Processes w with
        | Val _, Val processes => table_panics c processes
        | _, _ => false
        end
      else false
  end.

(** Specification of a scrape's log lines, likewise. *)
Definition collected_log (c : ProcessCollector) (w : World) : list string :=
  match fetch c w with
  | Err err => ["Failed to connect to admin server: " +:+ err]
  | Val resp =>
      if http.StatusCode resp =? 200 then
        match json_Decode w (http.Body resp) with
        | Err err => ["Failed to parse server runtimes: " +:+ err]
        | Val runtimes =>
            match first_named (serverName c) (Items (Body runtimes)) with
            | Some _ => []
            | None => ["Server " +:+ serverName c +:+ " not found in domain"]
            end ++
            match process_Processes w with
            | Err err => ["Failed to retrieve processes: " +:+ err]
            | Val _ => []
            end
        end
      else ["Admin server returned status: " +:+ http.Status resp]
  end.

(** ** Names of the series *)

(** What identifies a series to a reader of the metrics: the name of the
    descriptor and the names of its labels. *)
Definition name_and_labels (d : prometheus.Desc) : string * list string :=
  (prometheus.fqName d, prometheus.variableLabels d).

(** The three series under the names the descriptors of
    [NewProcessCollector] carry. *)
Definition metric_output : list (string * list string) :=
  [ ("weblogic_admin_server_up", []);
    ("weblogic_server_up", ["server_name"]);
    ("process_arg", ["server_name"; "pid"; "index"; "value"]) ].

(** Specification: the three series under the names the Metric Output of
    the specification gives them. *)
Definition spec_metric_output : list (string * list string) :=
  [ ("admin_up", []);
    ("server_up", ["server_name"]);
    ("process_arg", ["server_name"; "pid"; "index"; "value"]) ].

(** Every sample belongs to a series of the table. *)
Definition named_within (table : list (string * list string))
    (samples : list prometheus.Metric) : Prop :=
  Forall (fun m => name_and_labels (prometheus.desc m) ∈ table) samples.

(** ** Startup *)

(** The [flag] package, after [flag.Parse()]: what the command line set,
    by flag name, text flags and integer flags apart.  A flag the command
    line does not set keeps the default it was declared with. *)
Module flag.

Record FlagSet : Type := {
  strings : gmap string string;
  ints : gmap string Z
}.

(** [*flag.String(name, value, usage)], read after parsing. *)
Definition String (fs : FlagSet) (name value : string) : string :=
  default value (strings fs !! name).


End flag.





(** ** Reading the channel, continued *)

(** What makes two samples the same time series: the series and the
    label values. *)
Definition label_key (m : prometheus.Metric) : string * list string :=
  (series m, prometheus.labelValues m).

(** The number of arguments of the readable processes of the table. *)
Definition total_args (w : World) : nat :=
  match process_Processes w with
  | Val processes =>
      list_sum
        (map (fun p => match process.CmdlineSlice p with
                       | Val cmdline => length cmdline
                       | Err _ => 0%nat
                       end) processes)
  | Err _ => 0%nat
  end.

(** A transport that answers every request with what it found in the
    [Authorization] header. *)
Definition echo_authorization : World :=
  {| http_DefaultTransport := fun req =>
       Val {| http.Status := http.Header_Get (http.Header req) "Authorization";
              http.StatusCode := 200;
              http.Body := "" |};
     json_Decode := fun _ => Err "EOF";
     process_Processes := Val [];
     json_Decode_valid := fun _ => I |}.

(** ** Sample runs *)

Module Sample.

(** A collector as [main] would build it. *)
Definition collector : ProcessCollector :=
  NewProcessCollector "http://localhost:7001" "weblogic" "welcome1" "AdminServer".

Definition java : process.Process :=
  {| process.Pid := 4242;
     process.CmdlineSlice :=
       Val ["java"; "-Dweblogic.Name=AdminServer"; "-Xmx1g";
            "-Dweblogic.Name=AdminServer"; "weblogic.Server"] |}.

Definition table : list process.Process :=
  [ {| process.Pid := 1; process.CmdlineSlice := Val ["/sbin/init"] |};
    {| process.Pid := 77; process.CmdlineSlice := Err "permission denied" |};
    java;
    {| process.Pid := 4300;
       process.CmdlineSlice := Val ["java"; "-Dweblogic.Name=ms1"; "weblogic.Server"] |} ].

(** An admin server that answers 200 to the right credentials and 401
    to any other request. *)
Definition admin (req : http.Request) : res http.Response :=
  if String.eqb (http.Header_Get (http.Header req) "Authorization")
       "Basic d2VibG9naWM6d2VsY29tZTE="
  then Val {| http.Status := "200 OK"; http.StatusCode := 200;
              http.Body := "{...}" |}
  else Val {| http.Status := "401 Unauthorized"; http.StatusCode := 401;
              http.Body := "" |}.

Definition domain : list ServerRuntime :=
  [ {| Name := "ms1"; State := "RUNNING" |};
    {| Name := "AdminServer"; State := "SHUTDOWN" |};
    {| Name := "AdminServer"; State := "RUNNING" |} ].

(** The admin server cannot be reached. *)
Definition unreachable : World :=
  {| http_DefaultTransport := fun _ => Err "dial tcp 127.0.0.1:7001: connect: connection refused";
     json_Decode := fun _ => Err "unexpected end of JSON input";
     process_Processes := Val table;
     json_Decode_valid := fun _ => I |}.

(** The admin server turns every request down. *)
Definition refusing : World :=
  {| http_DefaultTransport := fun _ =>
       Val {| http.Status := "503 Service Unavailable"; http.StatusCode := 503;
              http.Body := "" |};
     json_Decode := fun _ => Val {| Body := {| Items := domain |} |};
     process_Processes := Val table;
     json_Decode_valid := fun _ => eq_refl |}.

(** The admin server answers with a body that is not JSON. *)
Definition garbled : World :=
  {| http_DefaultTransport := admin;
     json_Decode := fun _ => Err "invalid character '<' looking for beginning of value";
     process_Processes := Val table;
     json_Decode_valid := fun _ => I |}.

(** The admin server reports the domain; the target is listed twice. *)
Definition healthy : World :=
  {| http_DefaultTransport := admin;
     json_Decode := fun _ => Val {| Body := {| Items := domain |} |};
     process_Processes := Val table;
     json_Decode_valid := fun _ => eq_refl |}.

(** The admin server reports a domain without the target. *)
Definition absent : World :=
  {| http_DefaultTransport := admin;
     json_Decode := fun _ =>
       Val {| Body := {| Items := [ {| Name := "ms1"; State := "RUNNING" |} ] |} |};
     process_Processes := Val table;
     json_Decode_valid := fun _ => eq_refl |}.

(** An argument that is not valid UTF-8: the single byte [0xFF]. *)
Definition xFF : string := String "255"%char "".

(** A server process started with such an argument. *)
Definition mangled : process.Process :=
  {| process.Pid := 4242;
     process.CmdlineSlice := Val ["java"; "-Dweblogic.Name=AdminServer"; xFF] |}.

(** Another, with the marker before and after it. *)
Definition mangled_twice : process.Process :=
  {| process.Pid := 4242;
     process.CmdlineSlice :=
       Val ["-Dweblogic.Name=AdminServer"; xFF; "-Dweblogic.Name=AdminServer"] |}.

End Sample.

(** * Properties *)

(** ** The effect monad *)

Lemma bind_run {A B : Type} (m : Eff A) (f : A -> Eff B) (o : Output) :
  (m ≫= f) o = match m o with Ok a o' => f a o' | Panic msg o' => Panic msg o' end.
Proof. reflexivity. Qed.

Lemma ret_run {A : Type} (a : A) (o : Output) : mret (M := Eff) a o = Ok a o.
Proof. reflexivity. Qed.

Lemma MustNewConstMetric_run d vt v lvs o :
  length lvs = length (prometheus.variableLabels d) ->
  forallb utf8.ValidString lvs = true ->
  MustNewConstMetric d vt v lvs o =
    Ok {| prometheus.desc := d; prometheus.valType := vt;
          prometheus.val := v; prometheus.labelValues := lvs |} o.
Proof.
  intros Hlen Hvalid. unfold MustNewConstMetric.
  rewrite Hlen, Nat.eqb_refl, Hvalid. reflexivity.
Qed.

Lemma MustNewConstMetric_panics d vt v lvs o :
  length lvs = length (prometheus.variableLabels d) ->
  forallb utf8.ValidString lvs = false ->
  MustNewConstMetric d vt v lvs o = Panic "label value is not valid UTF-8" o.
Proof.
  intros Hlen Hvalid. unfold MustNewConstMetric.
  rewrite Hlen, Nat.eqb_refl, Hvalid. reflexivity.
Qed.

Lemma slices_Contains_spec (s : list string) (v : string) :
  slices_Contains s v = bool_decide (v ∈ s).
Proof.
  induction s as [|x s IH]; cbn [slices_Contains].
  - symmetry. apply bool_decide_eq_false. apply not_elem_of_nil.
  - destruct (String.eqb_spec v x) as [->|Hne].
    + symmetry. apply bool_decide_eq_true. apply list_elem_of_here.
    + rewrite IH. apply bool_decide_ext. rewrite elem_of_cons.
      split; [now right | intros [Heq|Hin]; [contradiction | exact Hin]].
Qed.

(** ** Decimal numbers are valid UTF-8 *)

Lemma ValidString_uint (d : Decimal.uint) :
  utf8.ValidString (NilEmpty.string_of_uint d) = true.
Proof. induction d; cbn; try reflexivity; exact IHd. Qed.

Lemma ValidString_Sprintf_d (n : Z) : utf8.ValidString (Sprintf_d n) = true.
Proof.
  unfold Sprintf_d, NilZero.string_of_int, NilZero.string_of_uint.
  destruct (Z.to_int n) as [d|d].
  - destruct d; try reflexivity; apply (ValidString_uint (_ d)).
  - destruct d; try reflexivity.
    all: change (utf8.ValidString (String "-" ?s)) with (utf8.ValidString s).
    all: apply (ValidString_uint (_ d)).
Qed.

Section loops.
Variables url user pass name : string.
Local Abbreviation c := (NewProcessCollector url user pass name).

Lemma Collect_args_run pid cmdline : forall i o,
  utf8.ValidString pid = true ->
  Collect_args c pid i cmdline o =
    finish (negb (forallb (label_ok c) cmdline))
      {| ch := ch o ++ imap (fun k arg => process_arg_sample c pid (i + Z.of_nat k) arg)
                         (sendable c cmdline);
         logged := logged o |}.
Proof.
  induction cmdline as [|arg rest IH]; intros i o Hpid.
  - cbn. rewrite app_nil_r. destruct o; reflexivity.
  - cbn [Collect_args forallb sendable]. rewrite bind_run.
    destruct (label_ok c arg) eqn:Hok.
    + unfold label_ok in Hok. cbn [serverName NewProcessCollector] in Hok.
      apply andb_prop in Hok. destruct Hok as [Hname Harg].
      rewrite MustNewConstMetric_run;
        [|reflexivity
         |cbn [forallb serverName NewProcessCollector];
          rewrite Hname, Hpid, ValidString_Sprintf_d, Harg; reflexivity].
      rewrite bind_run. cbn [send]. rewrite IH by exact Hpid. cbn [ch logged andb].
      rewrite <- app_assoc. do 3 f_equal. cbn [imap app].
      rewrite Z.add_0_r. f_equal.
      apply imap_ext. intros k x _. cbn. f_equal. lia.
    + unfold label_ok in Hok. cbn [serverName NewProcessCollector] in Hok.
      rewrite MustNewConstMetric_panics;
        [|reflexivity
         |cbn [forallb serverName NewProcessCollector];
          rewrite Hpid, ValidString_Sprintf_d, andb_true_r; exact Hok].
      cbn [andb negb finish imap]. rewrite app_nil_r. destruct o; reflexivity.
Qed.

Lemma Collect_process_run p o :
  Collect_process c p o =
    finish (process_panics c p)
      {| ch := ch o ++ process_sent c p; logged := logged o |}.
Proof.
  unfold Collect_process, process_sent, process_panics.
  destruct (process.CmdlineSlice p) as [cmdline|e].
  - rewrite slices_Contains_spec. cbn [serverName NewProcessCollector].
    case_bool_decide.
    + rewrite Collect_args_run by apply ValidString_Sprintf_d. reflexivity.
    + rewrite ret_run, app_nil_r. destruct o; reflexivity.
  - rewrite ret_run, app_nil_r. destruct o; reflexivity.
Qed.

Lemma Collect_processes_run processes : forall o,
  Collect_processes c processes o =
    finish (table_panics c processes)
      {| ch := ch o ++ table_sent c processes; logged := logged o |}.
Proof.
  induction processes as [|p rest IH]; intros o.
  - cbn [Collect_processes table_sent table_panics finish].
    rewrite ret_run, app_nil_r. destruct o; reflexivity.
  - cbn [Collect_processes table_sent table_panics].
    rewrite bind_run, Collect_process_run.
    destruct (process_panics c p); cbn [finish orb].
    + rewrite app_nil_r. reflexivity.
    + rewrite IH. cbn [ch logged]. rewrite app_assoc. reflexivity.
Qed.

Lemma Collect_items_run items : forall o,
  valid_items items = true ->
  Collect_items c items o =
    match first_named name items with
    | Some server =>
        Ok true {| ch := ch o ++ [server_up_sample c server]; logged := logged o |}
    | None => Ok false o
    end.
Proof.
  induction items as [|server rest IH]; intros o Hvalid.
  - reflexivity.
  - cbn [valid_items forallb] in Hvalid. apply andb_prop in Hvalid.
    destruct Hvalid as [Hserver Hrest]. apply andb_prop in Hserver.
    cbn [Collect_items first_named List.find serverName NewProcessCollector].
    destruct (String.eqb (Name server) name).
    + rewrite bind_run, MustNewConstMetric_run;
        [reflexivity | reflexivity
         | cbn [forallb]; rewrite (proj1 Hserver); reflexivity].
    + apply IH, Hrest.
Qed.

(** How a scrape stops, and with what samples and log lines. *)
Lemma Collect_run w :
  Collect c w start =
    finish (scrape_panics c w)
      {| ch := collected c w; logged := collected_log c w |}.
Proof.
  unfold Collect, collected, collected_log, scrape_panics, fetch.
  destruct (Client_Get _ _ _) as [resp|e]; [|reflexivity].
  unfold http.StatusOK.
  destruct (http.StatusCode resp =? 200); cbn [negb]; [|reflexivity].
  rewrite bind_run, MustNewConstMetric_run by reflexivity.
  rewrite bind_run. cbn [send start ch logged app].
  pose proof (json_Decode_valid w (http.Body resp)) as Hvalid.
  destruct (json_Decode w (http.Body resp)) as [runtimes|e]; [|reflexivity].
  rewrite bind_run, Collect_items_run by exact Hvalid.
  cbn [serverName NewProcessCollector].
  destruct (first_named name (Items (Body runtimes))) as [server|];
    cbn [negb]; rewrite bind_run; [rewrite ret_run | unfold log_Printf at 1];
    (destruct (process_Processes w) as [processes|e];
     [rewrite Collect_processes_run | unfold log_Printf]);
    cbn [ch logged app]; rewrite ?app_nil_r; reflexivity.
Qed.

Lemma scrape_collected w : scrape c w = Some (collected c w).
Proof.
  unfold scrape. rewrite Collect_run. destruct (scrape_panics c w); reflexivity.
Qed.

(** A scrape that does not panic returns. *)
Lemma Collect_returns w :
  scrape_panics c w = false ->
  Collect c w start = Ok tt {| ch := collected c w; logged := collected_log c w |}.
Proof. intros Hno. rewrite Collect_run, Hno. reflexivity. Qed.

End loops.
(** ** The search of the items *)

Lemma first_named_at name before server after :
  Forall (fun x => Name x <> name) before ->
  Name server = name ->
  first_named name (before ++ server :: after) = Some server.
Proof.
  intros Hbefore Hname. unfold first_named.
  induction Hbefore as [|x before Hx _ IH]; cbn [app List.find].
  - rewrite Hname, String.eqb_refl. reflexivity.
  - apply String.eqb_neq in Hx. rewrite Hx. exact IH.
Qed.

Lemma first_named_none name items :
  Forall (fun x => Name x <> name) items -> first_named name items = None.
Proof.
  intros Hall. unfold first_named.
  induction Hall as [|x items Hx _ IH]; cbn [List.find]; [reflexivity|].
  apply String.eqb_neq in Hx. rewrite Hx. exact IH.
Qed.

Lemma first_named_split name items :
  (exists x, x ∈ items /\ Name x = name) ->
  exists before server after,
    items = before ++ server :: after /\
    Forall (fun x => Name x <> name) before /\
    Name server = name.
Proof.
  induction items as [|y items IH]; intros (x & Hin & Hx).
  - apply elem_of_nil in Hin. contradiction.
  - destruct (String.eqb_spec (Name y) name) as [Hy|Hy].
    + exists [], y, items. repeat split; [constructor | exact Hy].
    + apply elem_of_cons in Hin. destruct Hin as [->|Hin]; [contradiction|].
      destruct IH as (before & server & after & -> & Hbefore & Hserver);
        [exists x; split; assumption|].
      exists (y :: before), server, after.
      repeat split; [constructor; assumption | exact Hserver].
Qed.

(** ** Series of the samples *)

Lemma samples_of_app n l1 l2 :
  samples_of n (l1 ++ l2) = samples_of n l1 ++ samples_of n l2.
Proof. apply List.filter_app. Qed.

Lemma samples_of_other n n' l :
  n <> n' -> Forall (fun m => series m = n') l -> samples_of n l = [].
Proof.
  intros Hne Hall. induction Hall as [|m l Hm _ IH]; [reflexivity|].
  cbn [samples_of List.filter]. unfold in_series at 1. rewrite Hm.
  apply not_eq_sym in Hne. apply String.eqb_neq in Hne. rewrite Hne.
  exact IH.
Qed.

Section samples.
Variables url user pass name : string.
Local Abbreviation c := (NewProcessCollector url user pass name).

Lemma process_arg_samples_series p :
  Forall (fun m => series m = "process_arg") (process_arg_samples c p).
Proof.
  unfold process_arg_samples.
  destruct (process.CmdlineSlice p) as [cmdline|e]; [|constructor].
  case_bool_decide; [|constructor].
  apply Forall_lookup. intros i m Hm.
  apply list_lookup_imap_Some in Hm. destruct Hm as (arg & _ & ->). reflexivity.
Qed.

Lemma process_table_series processes :
  Forall (fun m => series m = "process_arg")
    (flat_map (process_arg_samples c) processes).
Proof.
  induction processes as [|p rest IH]; cbn [flat_map]; [constructor|].
  apply Forall_app. split; [apply process_arg_samples_series | exact IH].
Qed.

Lemma sublist_Forall {A : Type} (P : A -> Prop) (l1 l2 : list A) :
  l1 `sublist_of` l2 -> Forall P l2 -> Forall P l1.
Proof.
  intros Hsub Hall. apply Forall_forall. intros x Hx.
  rewrite Forall_forall in Hall. apply Hall. eapply elem_of_sublist; eassumption.
Qed.

(** What the loop sends before a panic is part of what it sends without
    one. *)
Lemma sendable_sublist {B : Type} cmdline : forall (f : nat -> string -> B),
  imap f (sendable c cmdline) `sublist_of` imap f cmdline.
Proof.
  induction cmdline as [|arg rest IH]; intros f; cbn [sendable imap].
  - constructor.
  - destruct (label_ok c arg); cbn [imap].
    + apply sublist_skip, IH.
    + apply sublist_nil_l.
Qed.

Lemma process_sent_sublist p :
  process_sent c p `sublist_of` process_arg_samples c p.
Proof.
  unfold process_sent, process_arg_samples.
  destruct (process.CmdlineSlice p) as [cmdline|e]; [|constructor].
  case_bool_decide; [apply sendable_sublist | constructor].
Qed.

Lemma table_sent_sublist processes :
  table_sent c processes `sublist_of` flat_map (process_arg_samples c) processes.
Proof.
  induction processes as [|p rest IH]; cbn [table_sent flat_map]; [constructor|].
  apply sublist_app; [apply process_sent_sublist|].
  destruct (process_panics c p); [apply sublist_nil_l | exact IH].
Qed.

Lemma table_sent_series processes :
  Forall (fun m => series m = "process_arg") (table_sent c processes).
Proof.
  eapply sublist_Forall; [apply table_sent_sublist | apply process_table_series].
Qed.

Lemma sendable_all cmdline :
  forallb (label_ok c) cmdline = true -> sendable c cmdline = cmdline.
Proof.
  induction cmdline as [|arg rest IH]; cbn [forallb sendable]; [reflexivity|].
  intros Hall. apply andb_prop in Hall. destruct Hall as [-> Hrest].
  rewrite IH by exact Hrest. reflexivity.
Qed.

Lemma label_ok_all cmdline :
  utf8.ValidString name = true ->
  Forall (fun arg => utf8.ValidString arg = true) cmdline ->
  forallb (label_ok c) cmdline = true.
Proof.
  intros Hname Hall. induction Hall as [|arg rest Harg _ IH]; [reflexivity|].
  cbn [forallb]. unfold label_ok at 1. cbn [serverName NewProcessCollector].
  rewrite Hname, Harg, IH. reflexivity.
Qed.

(** A process with valid labels is gone through without a panic. *)
Lemma process_sent_valid p :
  labels_valid name p ->
  process_sent c p = process_arg_samples c p /\ process_panics c p = false.
Proof.
  intros Hvalid. unfold process_sent, process_arg_samples, process_panics.
  destruct (process.CmdlineSlice p) as [cmdline|e] eqn:Hcmd; [|split; reflexivity].
  cbn [serverName NewProcessCollector]. case_bool_decide as Hin; [|split; reflexivity].
  destruct (Hvalid cmdline Hcmd Hin) as [Hname Hargs].
  pose proof (label_ok_all cmdline Hname Hargs) as Hall.
  rewrite (sendable_all cmdline Hall), Hall. split; reflexivity.
Qed.

Lemma table_sent_valid processes :
  Forall (labels_valid name) processes ->
  table_sent c processes = flat_map (process_arg_samples c) processes /\
  table_panics c processes = false.
Proof.
  intros Hall. induction Hall as [|p rest Hp _ [IHsent IHpanics]];
    [split; reflexivity|].
  cbn [table_sent table_panics flat_map].
  destruct (process_sent_valid p Hp) as [-> ->].
  rewrite IHsent, IHpanics. split; reflexivity.
Qed.

(** The table in two parts: the second is reached if the loop does not
    panic in the first. *)
Lemma table_sent_app before rest :
  table_sent c (before ++ rest) =
    table_sent c before ++ (if table_panics c before then [] else table_sent c rest) /\
  table_panics c (before ++ rest) = table_panics c before || table_panics c rest.
Proof.
  induction before as [|p before [IHsent IHpanics]]; [split; reflexivity|].
  cbn [app table_sent table_panics]. rewrite IHsent, IHpanics.
  destruct (process_panics c p); cbn [orb].
  - rewrite !app_nil_r. split; reflexivity.
  - rewrite app_assoc. split; reflexivity.
Qed.

Lemma process_arg_samples_length p args :
  process.CmdlineSlice p = Val args ->
  length (process_arg_samples c p) =
    if bool_decide (("-Dweblogic.Name=" +:+ name) ∈ args) then length args else 0%nat.
Proof.
  intros Hargs. unfold process_arg_samples. rewrite Hargs.
  cbn [serverName NewProcessCollector].
  case_bool_decide; [apply length_imap | reflexivity].
Qed.

Lemma process_arg_samples_lookup p args i arg :
  process.CmdlineSlice p = Val args ->
  ("-Dweblogic.Name=" +:+ name) ∈ args ->
  args !! i = Some arg ->
  process_arg_samples c p !! i =
    Some (process_arg_sample c (Sprintf_d (process.Pid p)) (Z.of_nat i) arg).
Proof.
  intros Hargs Hin Hi. unfold process_arg_samples. rewrite Hargs.
  cbn [serverName NewProcessCollector].
  rewrite bool_decide_eq_true_2 by exact Hin.
  rewrite list_lookup_imap, Hi. reflexivity.
Qed.

Lemma fetch_with_processes w ps : fetch c (with_processes w ps) = fetch c w.
Proof. reflexivity. Qed.

End samples.

(** ** The admin server phase *)

(** Names the collector of a statement [c]. *)
Ltac collector :=
  cbv zeta; set (c := NewProcessCollector _ _ _ _) in *.

(** C2. When the GET fails in the transport, or its answer has a status
    other than 200, the scrape sends exactly one sample, [admin_up] with
    value 0: nothing of the server series, nothing of the process
    series. *)
Theorem C2_admin_down_single_sample (url user pass name : string) (w : World) :
  let c := NewProcessCollector url user pass name in
  (exists e, fetch c w = Err e) \/
  (exists resp, fetch c w = Val resp /\ http.StatusCode resp <> 200) ->
  exists samples,
    scrape c w = Some samples /\
    samples =
      [ {| prometheus.desc := adminUpDesc c;
           prometheus.valType := prometheus.GaugeValue;
           prometheus.val := f64_0;
           prometheus.labelValues := [] |} ] /\
    samples_of "weblogic_server_up" samples = [] /\
    samples_of "process_arg" samples = [].
Proof.
  collector. intros Hdown. exists (collected c w).
  split; [apply scrape_collected|].
  assert (collected c w = [admin_up_sample c f64_0]) as ->.
  { unfold collected. destruct Hdown as [(e & ->)|(resp & -> & Hcode)].
    - reflexivity.
    - apply Z.eqb_neq in Hcode. rewrite Hcode. reflexivity. }
  repeat split.
Qed.

Lemma C2_admin_down_witness :
  fetch Sample.collector Sample.refusing =
    Val {| http.Status := "503 Service Unavailable"; http.StatusCode := 503;
           http.Body := "" |} /\
  exists samples,
    scrape Sample.collector Sample.refusing = Some samples /\
    length samples = 1%nat.
Proof.
  split; [reflexivity|].
  destruct (C2_admin_down_single_sample
              "http://localhost:7001" "weblogic" "welcome1" "AdminServer"
              Sample.refusing) as (samples & Hrun & -> & _).
  - right. eexists. split; [reflexivity|]. cbn. discriminate.
  - eexists. split; [exact Hrun | reflexivity].
Defined.

(** C7. When the answer is a 200 whose body does not decode, the scrape
    sends [admin_up] with value 1 and nothing else. *)
Theorem C7_decode_failure_only_admin_up (url user pass name : string) (w : World)
    (resp : http.Response) (e : error) :
  let c := NewProcessCollector url user pass name in
  fetch c w = Val resp ->
  http.StatusCode resp = 200 ->
  json_Decode w (http.Body resp) = Err e ->
  exists samples,
    scrape c w = Some samples /\
    samples =
      [ {| prometheus.desc := adminUpDesc c;
           prometheus.valType := prometheus.GaugeValue;
           prometheus.val := f64_1;
           prometheus.labelValues := [] |} ] /\
    samples_of "weblogic_server_up" samples = [] /\
    samples_of "process_arg" samples = [].
Proof.
  collector. intros Hget Hcode Hdecode. exists (collected c w).
  split; [apply scrape_collected|].
  assert (collected c w = [admin_up_sample c f64_1]) as ->.
  { unfold collected. rewrite Hget, Hcode, Hdecode. reflexivity. }
  repeat split.
Qed.

Lemma C7_decode_failure_witness :
  exists samples,
    scrape Sample.collector Sample.garbled = Some samples /\
    length samples = 1%nat.
Proof.
  destruct (C7_decode_failure_only_admin_up
              "http://localhost:7001" "weblogic" "welcome1" "AdminServer"
              Sample.garbled
              {| http.Status := "200 OK"; http.StatusCode := 200; http.Body := "{...}" |}
              "invalid character '<' looking for beginning of value")
    as (samples & Hrun & -> & _).
  - reflexivity.
  - reflexivity.
  - reflexivity.
  - eexists. split; [exact Hrun | reflexivity].
Defined.

(** C9. Every scrape, whatever happens in it, sends exactly one
    [admin_up] sample, and sends it first: value 0 when the GET failed
    or was answered by another status than 200, value 1 in every other
    case. *)
Theorem C9_exactly_one_admin_up (url user pass name : string) (w : World) :
  let c := NewProcessCollector url user pass name in
  let v := match fetch c w with
           | Val resp => if http.StatusCode resp =? 200 then f64_1 else f64_0
           | Err _ => f64_0
           end in
  exists rest,
    scrape c w =
      Some ({| prometheus.desc := adminUpDesc c;
               prometheus.valType := prometheus.GaugeValue;
               prometheus.val := v;
               prometheus.labelValues := [] |} :: rest) /\
    samples_of "weblogic_admin_server_up" rest = [] /\
    length (samples_of "weblogic_admin_server_up"
              ({| prometheus.desc := adminUpDesc c;
                  prometheus.valType := prometheus.GaugeValue;
                  prometheus.val := v;
                  prometheus.labelValues := [] |} :: rest)) = 1%nat.
Proof.
  cbv zeta. rewrite scrape_collected. collector. unfold collected.
  destruct (fetch c w) as [resp|e].
  - destruct (http.StatusCode resp =? 200).
    + eexists. split; [reflexivity|].
      assert (Hrest : forall rest, samples_of "weblogic_admin_server_up" rest = [] ->
                samples_of "weblogic_admin_server_up" rest = [] /\
                length (samples_of "weblogic_admin_server_up"
                          (admin_up_sample c f64_1 :: rest)) = 1%nat).
      { intros rest Hnone. split; [exact Hnone|].
        cbn [samples_of List.filter]. change (in_series _ (admin_up_sample c f64_1)) with true.
        cbn iota. cbn [length]. f_equal. fold (samples_of "weblogic_admin_server_up" rest).
        rewrite Hnone. reflexivity. }
      apply Hrest.
      destruct (json_Decode w (http.Body resp)) as [runtimes|e]; [|reflexivity].
      rewrite samples_of_app.
      assert (samples_of "weblogic_admin_server_up"
                match first_named (serverName c) (Items (Body runtimes)) with
                | Some server => [server_up_sample c server]
                | None => []
                end = []) as ->
        by (destruct (first_named _ _); reflexivity).
      destruct (process_Processes w) as [processes|e]; [|reflexivity].
      apply samples_of_other with (n' := "process_arg");
        [discriminate | apply table_sent_series].
    + exists []. repeat split.
  - exists []. repeat split.
Qed.

(** ** The server phase *)

Section server_phase.
Variables url user pass name : string.
Local Abbreviation c := (NewProcessCollector url user pass name).

(** After a decoded 200: [admin_up] = 1, then what the search of the
    items gives, then what the process table gives. *)
Lemma collected_decoded w resp runtimes :
  fetch c w = Val resp ->
  http.StatusCode resp = 200 ->
  json_Decode w (http.Body resp) = Val runtimes ->
  collected c w =
    admin_up_sample c f64_1 ::
      match first_named name (Items (Body runtimes)) with
      | Some server => [server_up_sample c server]
      | None => []
      end ++
      match process_Processes w with
      | Val processes => table_sent c processes
      | Err _ => []
      end.
Proof.
  intros Hget Hcode Hdecode. unfold collected.
  rewrite Hget, Hcode, Hdecode. reflexivity.
Qed.

Lemma process_phase_no_server_up (table : res (list process.Process)) :
  samples_of "weblogic_server_up"
    match table with
    | Val processes => table_sent c processes
    | Err _ => []
    end = [].
Proof.
  destruct table as [processes|e]; [|reflexivity].
  apply samples_of_other with (n' := "process_arg");
    [discriminate | apply table_sent_series].
Qed.

Lemma server_up_count w :
  (length (samples_of "weblogic_server_up" (collected c w)) <= 1)%nat.
Proof.
  unfold collected.
  destruct (fetch c w) as [resp|e]; [|cbn; lia].
  destruct (http.StatusCode resp =? 200); [|cbn; lia].
  destruct (json_Decode w (http.Body resp)) as [runtimes|e]; [|cbn; lia].
  change (admin_up_sample c f64_1 :: ?l) with ([admin_up_sample c f64_1] ++ l).
  rewrite !samples_of_app, process_phase_no_server_up, app_nil_r.
  destruct (first_named _ _); cbn; lia.
Qed.

(** A process the loop does not panic in has valid labels. *)
Lemma labels_valid_of_no_panic p :
  process_panics c p = false -> labels_valid name p.
Proof.
  unfold process_panics, labels_valid. intros Hno args Hargs Hin.
  rewrite Hargs in Hno. cbn [serverName NewProcessCollector] in Hno.
  rewrite bool_decide_eq_true_2 in Hno by exact Hin. cbn [andb] in Hno.
  apply negb_false_iff in Hno. rewrite forallb_forall in Hno.
  split.
  - apply list_elem_of_In in Hin. apply Hno in Hin.
    unfold label_ok in Hin. cbn [serverName NewProcessCollector] in Hin.
    apply andb_prop in Hin. apply Hin.
  - apply Forall_forall. intros arg Harg. apply list_elem_of_In in Harg.
    apply Hno in Harg. unfold label_ok in Harg. apply andb_prop in Harg. apply Harg.
Qed.

Lemma table_valid_of_no_panic processes :
  table_panics c processes = false -> Forall (labels_valid name) processes.
Proof.
  induction processes as [|p rest IH]; intros Hno; [constructor|].
  cbn [table_panics] in Hno. apply orb_false_elim in Hno. destruct Hno as [Hp Hrest].
  constructor; [apply labels_valid_of_no_panic, Hp | apply IH, Hrest].
Qed.

End server_phase.

(** C3. When the decoded items hold an entry named like the configured
    server, the scrape sends, right after [admin_up] = 1, a [server_up]
    sample for the first such entry: value 1 if its state is
    ["RUNNING"], value 0 for any other state. *)
Theorem C3_server_up_first_match (url user pass name : string) (w : World)
    (resp : http.Response) (runtimes : ServerRuntimesResponse) :
  let c := NewProcessCollector url user pass name in
  fetch c w = Val resp ->
  http.StatusCode resp = 200 ->
  json_Decode w (http.Body resp) = Val runtimes ->
  (exists x, x ∈ Items (Body runtimes) /\ Name x = name) ->
  exists before server after rest,
    Items (Body runtimes) = before ++ server :: after /\
    Forall (fun x => Name x <> name) before /\
    Name server = name /\
    scrape c w =
      Some (admin_up_sample c f64_1 ::
            {| prometheus.desc := serverStatusDesc c;
               prometheus.valType := prometheus.GaugeValue;
               prometheus.val :=
                 if String.eqb (State server) "RUNNING" then f64_1 else f64_0;
               prometheus.labelValues := [name] |} :: rest).
Proof.
  cbv zeta. intros Hget Hcode Hdecode Hsome.
  destruct (first_named_split name _ Hsome)
    as (before & server & after & Hitems & Hbefore & Hserver).
  exists before, server, after. eexists.
  repeat split; [exact Hitems | exact Hbefore | exact Hserver |].
  rewrite scrape_collected, (collected_decoded _ _ _ _ _ _ _ Hget Hcode Hdecode).
  rewrite Hitems, (first_named_at _ _ _ _ Hbefore Hserver).
  unfold server_up_sample. rewrite Hserver. reflexivity.
Qed.

Lemma C3_server_up_witness :
  exists rest,
    scrape Sample.collector Sample.healthy =
      Some (admin_up_sample Sample.collector f64_1 ::
            {| prometheus.desc := serverStatusDesc Sample.collector;
               prometheus.valType := prometheus.GaugeValue;
               prometheus.val := f64_0;
               prometheus.labelValues := ["AdminServer"] |} :: rest).
Proof.
  destruct (C3_server_up_first_match
              "http://localhost:7001" "weblogic" "welcome1" "AdminServer"
              Sample.healthy
              {| http.Status := "200 OK"; http.StatusCode := 200; http.Body := "{...}" |}
              {| Body := {| Items := Sample.domain |} |})
    as (before & server & after & rest & Hitems & Hbefore & Hserver & Hrun).
  - reflexivity.
  - reflexivity.
  - reflexivity.
  - exists {| Name := "AdminServer"; State := "SHUTDOWN" |}. split; [|reflexivity].
    apply list_elem_of_further, list_elem_of_here.
  - exists rest. unfold Sample.collector. rewrite Hrun.
    cbn in Hitems. unfold Sample.domain in Hitems.
    destruct before as [|b0 [|b1 before]].
    + exfalso. injection Hitems as <- _. discriminate Hserver.
    + injection Hitems as _ <- _. reflexivity.
    + exfalso. injection Hitems as _ <- _. apply Forall_cons in Hbefore.
      destruct Hbefore as [_ Hbefore]. apply Forall_cons in Hbefore.
      destruct Hbefore as [Hne _]. apply Hne. reflexivity.
Defined.

(** C4. No scrape sends more than one [server_up] sample.  When the items
    hold entries named like the configured server, the one sample is that
    of the first of them: what follows it in the list, same name or not,
    whatever the state, adds nothing. *)
Theorem C4_at_most_one_server_up (url user pass name : string) (w : World) :
  let c := NewProcessCollector url user pass name in
  exists samples,
    scrape c w = Some samples /\
    (length (samples_of "weblogic_server_up" samples) <= 1)%nat /\
    forall resp runtimes before server after,
      fetch c w = Val resp ->
      http.StatusCode resp = 200 ->
      json_Decode w (http.Body resp) = Val runtimes ->
      Items (Body runtimes) = before ++ server :: after ->
      Forall (fun x => Name x <> name) before ->
      Name server = name ->
      samples_of "weblogic_server_up" samples =
        [ {| prometheus.desc := serverStatusDesc c;
             prometheus.valType := prometheus.GaugeValue;
             prometheus.val :=
               if String.eqb (State server) "RUNNING" then f64_1 else f64_0;
             prometheus.labelValues := [name] |} ].
Proof.
  cbv zeta. eexists. split; [apply scrape_collected|].
  split; [apply server_up_count|].
  intros resp runtimes before server after Hget Hcode Hdecode Hitems Hbefore Hserver.
  rewrite (collected_decoded _ _ _ _ _ _ _ Hget Hcode Hdecode).
  rewrite Hitems, (first_named_at _ _ _ _ Hbefore Hserver).
  change (admin_up_sample ?c f64_1 :: ?l) with ([admin_up_sample c f64_1] ++ l).
  rewrite !samples_of_app, process_phase_no_server_up, app_nil_r.
  unfold server_up_sample. rewrite Hserver. reflexivity.
Qed.

Lemma C4_at_most_one_witness :
  exists samples,
    scrape Sample.collector Sample.healthy = Some samples /\
    samples_of "weblogic_server_up" samples =
      [ {| prometheus.desc := serverStatusDesc Sample.collector;
           prometheus.valType := prometheus.GaugeValue;
           prometheus.val := f64_0;
           prometheus.labelValues := ["AdminServer"] |} ].
Proof.
  destruct (C4_at_most_one_server_up
              "http://localhost:7001" "weblogic" "welcome1" "AdminServer"
              Sample.healthy) as (samples & Hrun & _ & Hfirst).
  exists samples. split; [exact Hrun|].
  apply (Hfirst
           {| http.Status := "200 OK"; http.StatusCode := 200; http.Body := "{...}" |}
           {| Body := {| Items := Sample.domain |} |}
           [ {| Name := "ms1"; State := "RUNNING" |} ]
           {| Name := "AdminServer"; State := "SHUTDOWN" |}
           [ {| Name := "AdminServer"; State := "RUNNING" |} ]).
  - reflexivity.
  - reflexivity.
  - reflexivity.
  - reflexivity.
  - constructor; [discriminate | constructor].
  - reflexivity.
Defined.

(** C5. When the answer is a decoded 200 in which no item is named like
    the configured server, the scrape sends [admin_up] = 1, says so in
    the log, sends no [server_up] sample at all, and goes on to the
    process table: it ends as the loop over the processes ends, run
    after that one sample and that one line.  Where the labels the loop
    builds are valid UTF-8 it returns, and the rest of its samples are
    those of the processes. *)
Theorem C5_server_absent_no_sample (url user pass name : string) (w : World)
    (resp : http.Response) (runtimes : ServerRuntimesResponse) :
  let c := NewProcessCollector url user pass name in
  fetch c w = Val resp ->
  http.StatusCode resp = 200 ->
  json_Decode w (http.Body resp) = Val runtimes ->
  Forall (fun x => Name x <> name) (Items (Body runtimes)) ->
  exists o rest,
    output_of (Collect c w start) = o /\
    ch o =
      {| prometheus.desc := adminUpDesc c;
         prometheus.valType := prometheus.GaugeValue;
         prometheus.val := f64_1;
         prometheus.labelValues := [] |} :: rest /\
    samples_of "weblogic_server_up" (ch o) = [] /\
    head (logged o) = Some ("Server " +:+ name +:+ " not found in domain") /\
    Collect c w start =
      match process_Processes w with
      | Val processes =>
          Collect_processes c processes
            {| ch := [admin_up_sample c f64_1];
               logged := ["Server " +:+ name +:+ " not found in domain"] |}
      | Err err =>
          log_Printf ("Failed to retrieve processes: " +:+ err)
            {| ch := [admin_up_sample c f64_1];
               logged := ["Server " +:+ name +:+ " not found in domain"] |}
      end /\
    ((forall processes, process_Processes w = Val processes ->
                        Forall (labels_valid name) processes) ->
     Collect c w start = Ok tt o /\
     rest = match process_Processes w with
            | Val processes => flat_map (process_arg_samples c) processes
            | Err _ => []
            end).
Proof.
  cbv zeta. intros Hget Hcode Hdecode Habsent.
  eexists. eexists. split; [reflexivity|]. rewrite Collect_run.
  assert (Hout : forall b o, output_of (finish b o) = o) by (intros [] o; reflexivity).
  rewrite Hout. cbn [ch logged].
  rewrite (collected_decoded _ _ _ _ _ _ _ Hget Hcode Hdecode).
  unfold collected_log, scrape_panics. rewrite Hget, Hcode, Hdecode.
  cbn [serverName NewProcessCollector].
  rewrite (first_named_none _ _ Habsent). cbn [app].
  split; [reflexivity|]. split; [apply process_phase_no_server_up|].
  split; [reflexivity|]. split.
  - destruct (process_Processes w) as [processes|e]; [|reflexivity].
    rewrite Collect_processes_run. reflexivity.
  - intros Hvalid. destruct (process_Processes w) as [processes|e];
      [|split; reflexivity].
    destruct (table_sent_valid url user pass name processes (Hvalid _ eq_refl))
      as [-> ->].
    split; reflexivity.
Qed.

Lemma C5_server_absent_witness :
  exists samples,
    scrape Sample.collector Sample.absent = Some samples /\
    samples_of "weblogic_server_up" samples = [] /\
    length (samples_of "process_arg" samples) = 5%nat.
Proof.
  destruct (C5_server_absent_no_sample
              "http://localhost:7001" "weblogic" "welcome1" "AdminServer"
              Sample.absent
              {| http.Status := "200 OK"; http.StatusCode := 200; http.Body := "{...}" |}
              {| Body := {| Items := [ {| Name := "ms1"; State := "RUNNING" |} ] |} |})
    as (o & rest & Hout & Hch & Hnone & _ & _ & Hrest).
  - reflexivity.
  - reflexivity.
  - reflexivity.
  - constructor; [discriminate | constructor].
  - destruct Hrest as [Hrun Hrest].
    { intros processes Htable. injection Htable as <-.
      apply (table_valid_of_no_panic
               "http://localhost:7001" "weblogic" "welcome1" "AdminServer").
      reflexivity. }
    exists (ch o). unfold scrape, Sample.collector. rewrite Hrun.
    split; [reflexivity|].
    split; [exact Hnone|]. rewrite Hch, Hrest. reflexivity.
Defined.

(** ** The process phase *)

Section process_phase.
Variables url user pass name : string.
Local Abbreviation c := (NewProcessCollector url user pass name).

(** The samples of one process sit between those sent before the loop
    reached it and those of the processes after it; dropping the process
    from the table drops exactly its samples.  This is so when the loop
    reaches the process and gets through it, that is, when the labels of
    the processes before it and its own are valid UTF-8. *)
Lemma collected_split w resp runtimes before p after :
  fetch c w = Val resp ->
  http.StatusCode resp = 200 ->
  json_Decode w (http.Body resp) = Val runtimes ->
  process_Processes w = Val (before ++ p :: after) ->
  Forall (labels_valid name) before ->
  labels_valid name p ->
  exists pre post,
    collected c w = pre ++ process_arg_samples c p ++ post /\
    collected c (with_processes w (Val before)) = pre /\
    collected c (with_processes w (Val (before ++ after))) = pre ++ post.
Proof.
  intros Hget Hcode Hdecode Htable Hbefore Hp.
  exists (collected c (with_processes w (Val before))), (table_sent c after).
  rewrite (collected_decoded _ _ _ _ w resp runtimes Hget Hcode Hdecode), Htable.
  rewrite (collected_decoded _ _ _ _ (with_processes w (Val before)) resp runtimes
             Hget Hcode Hdecode).
  rewrite (collected_decoded _ _ _ _ (with_processes w (Val (before ++ after)))
             resp runtimes Hget Hcode Hdecode).
  cbn [process_Processes with_processes].
  destruct (table_sent_valid url user pass name before Hbefore) as [Hsent Hpanics].
  destruct (process_sent_valid url user pass name p Hp) as [Hpsent Hppanics].
  rewrite (proj1 (table_sent_app url user pass name before (p :: after))).
  rewrite (proj1 (table_sent_app url user pass name before after)).
  rewrite Hpanics. cbn [table_sent]. rewrite Hpsent, Hppanics.
  repeat split.
  - rewrite !app_comm_cons, <- !app_assoc. reflexivity.
  - rewrite !app_comm_cons, <- !app_assoc. reflexivity.
Qed.

Lemma marker_count args marker :
  bool_decide (marker ∈ args) = negb (count_occ String.string_dec args marker =? 0)%nat.
Proof.
  destruct (Nat.eqb_spec (count_occ String.string_dec args marker) 0) as [Hzero|Hpos];
    cbn [negb].
  - apply bool_decide_eq_false. rewrite list_elem_of_In.
    apply count_occ_not_In in Hzero. exact Hzero.
  - apply bool_decide_eq_true. rewrite list_elem_of_In.
    apply (count_occ_In String.string_dec). lia.
Qed.

End process_phase.

(** C6 (as the code has it).  A process whose readable argument vector
    holds the marker token [-Dweblogic.Name=<server name>] gets one
    [process_arg] sample per argument, in order, between the samples
    sent before the loop reached it and those of the later processes: as
    many samples as arguments, each with value 1 and the labels server
    name, pid in decimal, position in decimal counted from zero, and the
    argument itself.  This is so when the server name and the arguments
    of the process are valid UTF-8, and so are the labels of the
    processes the loop goes through before it. *)
Theorem C6_process_arg_per_argument (url user pass name : string) (w : World)
    (resp : http.Response) (runtimes : ServerRuntimesResponse)
    (before after : list process.Process) (p : process.Process)
    (args : list string) :
  let c := NewProcessCollector url user pass name in
  fetch c w = Val resp ->
  http.StatusCode resp = 200 ->
  json_Decode w (http.Body resp) = Val runtimes ->
  process_Processes w = Val (before ++ p :: after) ->
  process.CmdlineSlice p = Val args ->
  ("-Dweblogic.Name=" +:+ name) ∈ args ->
  utf8.ValidString name = true ->
  Forall (fun arg => utf8.ValidString arg = true) args ->
  Forall (labels_valid name) before ->
  exists pre new post,
    scrape c w = Some (pre ++ new ++ post) /\
    scrape c (with_processes w (Val before)) = Some pre /\
    scrape c (with_processes w (Val (before ++ after))) = Some (pre ++ post) /\
    length new = length args /\
    forall (i : nat) (arg : string),
      args !! i = Some arg ->
      new !! i =
        Some {| prometheus.desc := processArgDesc c;
                prometheus.valType := prometheus.GaugeValue;
                prometheus.val := f64_1;
                prometheus.labelValues :=
                  [name; Sprintf_d (process.Pid p); Sprintf_d (Z.of_nat i); arg] |}.
Proof.
  cbv zeta. intros Hget Hcode Hdecode Htable Hargs Hmarker Hname Hvalid Hbefore.
  assert (Hp : labels_valid name p).
  { intros args' Hargs' _. rewrite Hargs in Hargs'. injection Hargs' as <-.
    split; assumption. }
  destruct (collected_split _ _ _ _ _ _ _ _ _ _ Hget Hcode Hdecode Htable Hbefore Hp)
    as (pre & post & Hall & Hpre & Hless).
  exists pre, (process_arg_samples (NewProcessCollector url user pass name) p), post.
  rewrite !scrape_collected, Hall, Hpre, Hless.
  repeat split.
  - rewrite (process_arg_samples_length _ _ _ _ _ _ Hargs).
    rewrite bool_decide_eq_true_2 by exact Hmarker. reflexivity.
  - intros i arg Hi.
    apply (process_arg_samples_lookup _ _ _ _ _ _ _ _ Hargs Hmarker Hi).
Qed.

Lemma C6_process_arg_witness :
  exists pre post,
    scrape Sample.collector Sample.healthy =
      Some (pre ++
            map (fun '(i, arg) =>
                   {| prometheus.desc := processArgDesc Sample.collector;
                      prometheus.valType := prometheus.GaugeValue;
                      prometheus.val := f64_1;
                      prometheus.labelValues := ["AdminServer"; "4242"; i; arg] |})
              [("0", "java"); ("1", "-Dweblogic.Name=AdminServer"); ("2", "-Xmx1g");
               ("3", "-Dweblogic.Name=AdminServer"); ("4", "weblogic.Server")]
            ++ post).
Proof.
  destruct (C6_process_arg_per_argument
              "http://localhost:7001" "weblogic" "welcome1" "AdminServer"
              Sample.healthy
              {| http.Status := "200 OK"; http.StatusCode := 200; http.Body := "{...}" |}
              {| Body := {| Items := Sample.domain |} |}
              [ {| process.Pid := 1; process.CmdlineSlice := Val ["/sbin/init"] |};
                {| process.Pid := 77; process.CmdlineSlice := Err "permission denied" |} ]
              [ {| process.Pid := 4300;
                   process.CmdlineSlice :=
                     Val ["java"; "-Dweblogic.Name=ms1"; "weblogic.Server"] |} ]
              Sample.java
              ["java"; "-Dweblogic.Name=AdminServer"; "-Xmx1g";
               "-Dweblogic.Name=AdminServer"; "weblogic.Server"])
    as (pre & new & post & Hrun & _ & _ & Hlen & Hnew).
  - reflexivity.
  - reflexivity.
  - reflexivity.
  - reflexivity.
  - reflexivity.
  - apply list_elem_of_further, list_elem_of_here.
  - reflexivity.
  - repeat constructor.
  - apply (table_valid_of_no_panic
             "http://localhost:7001" "weblogic" "welcome1" "AdminServer").
    reflexivity.
  - exists pre, post. unfold Sample.collector. rewrite Hrun. do 3 f_equal.
    apply list_eq. intros i.
    destruct i as [|[|[|[|[|i]]]]];
      try (erewrite Hnew by reflexivity; reflexivity).
    rewrite lookup_ge_None_2 by (rewrite Hlen; cbn; lia). reflexivity.
Defined.

(** C6 as the specification words it fails.  A process started with an
    argument that is not valid UTF-8 has a readable argument vector with
    the marker token in it and three arguments; the scrape sends two
    [process_arg] samples and panics at the third. *)
Lemma C6_not_utf8_counterexample :
  process.CmdlineSlice Sample.mangled =
    Val ["java"; "-Dweblogic.Name=AdminServer"; Sample.xFF] /\
  "-Dweblogic.Name=AdminServer" ∈
    ["java"; "-Dweblogic.Name=AdminServer"; Sample.xFF] /\
  exists msg o,
    Collect Sample.collector
      (with_processes Sample.healthy (Val [Sample.mangled])) start = Panic msg o /\
    scrape Sample.collector
      (with_processes Sample.healthy (Val [Sample.mangled])) = Some (ch o) /\
    map prometheus.labelValues (samples_of "process_arg" (ch o)) =
      [ ["AdminServer"; "4242"; "0"; "java"];
        ["AdminServer"; "4242"; "1"; "-Dweblogic.Name=AdminServer"] ].
Proof.
  split; [reflexivity|].
  split; [apply list_elem_of_further, list_elem_of_here|].
  eexists. eexists. split; [reflexivity|]. split; reflexivity.
Qed.

(** C10 (as the code has it).  How often the marker token occurs in a
    process's argument vector does not matter, only whether it occurs:
    with [k] occurrences in a vector of length [L], the process accounts
    for [L] samples of the [process_arg] series when [k >= 1] (not
    [k * L]) and for none when [k = 0].  This is so when the labels of
    the process and of those the loop goes through before it are valid
    UTF-8. *)
Theorem C10_marker_multiplicity_irrelevant (url user pass name : string) (w : World)
    (resp : http.Response) (runtimes : ServerRuntimesResponse)
    (before after : list process.Process) (p : process.Process)
    (args : list string) (k : nat) :
  let c := NewProcessCollector url user pass name in
  fetch c w = Val resp ->
  http.StatusCode resp = 200 ->
  json_Decode w (http.Body resp) = Val runtimes ->
  process_Processes w = Val (before ++ p :: after) ->
  process.CmdlineSlice p = Val args ->
  count_occ String.string_dec args ("-Dweblogic.Name=" +:+ name) = k ->
  labels_valid name p ->
  Forall (labels_valid name) before ->
  exists pre new post,
    scrape c w = Some (pre ++ new ++ post) /\
    scrape c (with_processes w (Val before)) = Some pre /\
    scrape c (with_processes w (Val (before ++ after))) = Some (pre ++ post) /\
    Forall (fun m => series m = "process_arg") new /\
    length new = if (k =? 0)%nat then 0%nat else length args.
Proof.
  cbv zeta. intros Hget Hcode Hdecode Htable Hargs Hcount Hp Hbefore.
  destruct (collected_split _ _ _ _ _ _ _ _ _ _ Hget Hcode Hdecode Htable Hbefore Hp)
    as (pre & post & Hall & Hpre & Hless).
  exists pre, (process_arg_samples (NewProcessCollector url user pass name) p), post.
  rewrite !scrape_collected, Hall, Hpre, Hless.
  repeat split.
  - apply process_arg_samples_series.
  - rewrite (process_arg_samples_length _ _ _ _ _ _ Hargs).
    rewrite marker_count, Hcount. destruct (k =? 0)%nat; reflexivity.
Qed.

Lemma C10_marker_multiplicity_witness :
  count_occ String.string_dec
    ["java"; "-Dweblogic.Name=AdminServer"; "-Xmx1g";
     "-Dweblogic.Name=AdminServer"; "weblogic.Server"]
    "-Dweblogic.Name=AdminServer" = 2%nat /\
  exists pre new post,
    scrape Sample.collector Sample.healthy = Some (pre ++ new ++ post) /\
    scrape Sample.collector
      (with_processes Sample.healthy
         (Val [ {| process.Pid := 1; process.CmdlineSlice := Val ["/sbin/init"] |};
                {| process.Pid := 77; process.CmdlineSlice := Err "permission denied" |};
                {| process.Pid := 4300;
                   process.CmdlineSlice :=
                     Val ["java"; "-Dweblogic.Name=ms1"; "weblogic.Server"] |} ]))
      = Some (pre ++ post) /\
    length new = 5%nat.
Proof.
  split; [reflexivity|].
  destruct (C10_marker_multiplicity_irrelevant
              "http://localhost:7001" "weblogic" "welcome1" "AdminServer"
              Sample.healthy
              {| http.Status := "200 OK"; http.StatusCode := 200; http.Body := "{...}" |}
              {| Body := {| Items := Sample.domain |} |}
              [ {| process.Pid := 1; process.CmdlineSlice := Val ["/sbin/init"] |};
                {| process.Pid := 77; process.CmdlineSlice := Err "permission denied" |} ]
              [ {| process.Pid := 4300;
                   process.CmdlineSlice :=
                     Val ["java"; "-Dweblogic.Name=ms1"; "weblogic.Server"] |} ]
              Sample.java
              ["java"; "-Dweblogic.Name=AdminServer"; "-Xmx1g";
               "-Dweblogic.Name=AdminServer"; "weblogic.Server"]
              2%nat)
    as (pre & new & post & Hrun & _ & Hless & _ & Hlen).
  - reflexivity.
  - reflexivity.
  - reflexivity.
  - reflexivity.
  - reflexivity.
  - reflexivity.
  - apply (labels_valid_of_no_panic
             "http://localhost:7001" "weblogic" "welcome1" "AdminServer").
    reflexivity.
  - apply (table_valid_of_no_panic
             "http://localhost:7001" "weblogic" "welcome1" "AdminServer").
    reflexivity.
  - exists pre, new, post. repeat split; assumption.
Defined.

(** C10 as the specification words it fails.  With the marker token
    twice in a vector of three arguments, the second of them not valid
    UTF-8, the scrape sends one [process_arg] sample, not three, and
    panics. *)
Lemma C10_not_utf8_counterexample :
  process.CmdlineSlice Sample.mangled_twice =
    Val ["-Dweblogic.Name=AdminServer"; Sample.xFF; "-Dweblogic.Name=AdminServer"] /\
  count_occ String.string_dec
    ["-Dweblogic.Name=AdminServer"; Sample.xFF; "-Dweblogic.Name=AdminServer"]
    "-Dweblogic.Name=AdminServer" = 2%nat /\
  exists msg o,
    Collect Sample.collector
      (with_processes Sample.healthy (Val [Sample.mangled_twice])) start
      = Panic msg o /\
    scrape Sample.collector
      (with_processes Sample.healthy (Val [Sample.mangled_twice])) = Some (ch o) /\
    length (samples_of "process_arg" (ch o)) = 1%nat.
Proof.
  split; [reflexivity|]. split; [reflexivity|].
  eexists. eexists. split; [reflexivity|]. split; reflexivity.
Qed.

(** ** Names and labels of what is sent *)

Section names.
Variables url user pass name : string.
Local Abbreviation c := (NewProcessCollector url user pass name).

Lemma process_table_Forall (P : prometheus.Metric -> Prop) processes :
  (forall pid i arg, P (process_arg_sample c pid i arg)) ->
  Forall P (flat_map (process_arg_samples c) processes).
Proof.
  intros HP. induction processes as [|p rest IH]; cbn [flat_map]; [constructor|].
  apply Forall_app. split; [|exact IH].
  unfold process_arg_samples.
  destruct (process.CmdlineSlice p) as [cmdline|e]; [|constructor].
  case_bool_decide; [|constructor].
  apply Forall_lookup. intros i m Hm.
  apply list_lookup_imap_Some in Hm. destruct Hm as (arg & _ & ->). apply HP.
Qed.

Lemma collected_Forall (P : prometheus.Metric -> Prop) w :
  (forall v, P (admin_up_sample c v)) ->
  (forall server, Name server = name -> P (server_up_sample c server)) ->
  (forall pid i arg, P (process_arg_sample c pid i arg)) ->
  Forall P (collected c w).
Proof.
  intros Hadmin Hserver Hargs. unfold collected.
  destruct (fetch c w) as [resp|e]; [|repeat constructor; apply Hadmin].
  destruct (http.StatusCode resp =? 200); [|repeat constructor; apply Hadmin].
  constructor; [apply Hadmin|].
  destruct (json_Decode w (http.Body resp)) as [runtimes|e]; [|constructor].
  apply Forall_app. split.
  - destruct (first_named _ _) as [server|] eqn:Hfind; [|constructor].
    repeat constructor. apply Hserver.
    apply List.find_some in Hfind. destruct Hfind as [_ Hname].
    apply String.eqb_eq in Hname. exact Hname.
  - destruct (process_Processes w) as [processes|e]; [|constructor].
    eapply sublist_Forall; [apply table_sent_sublist|].
    apply process_table_Forall. exact Hargs.
Qed.

End names.

(** C1 (as the code has it).  The descriptors of a collector are the
    three series [weblogic_admin_server_up] (no label),
    [weblogic_server_up] (label [server_name]) and [process_arg] (labels
    [server_name], [pid], [index], [value]); every sample of every scrape,
    whatever its outcome, belongs to one of them and carries one value
    per label. *)
Theorem C1_metric_names_and_labels (url user pass name : string) (w : World) :
  let c := NewProcessCollector url user pass name in
  map name_and_labels (Describe c) = metric_output /\
  exists samples,
    scrape c w = Some samples /\
    named_within metric_output samples /\
    Forall (fun m => length (prometheus.labelValues m) =
                     length (prometheus.variableLabels (prometheus.desc m)))
      samples.
Proof.
  cbv zeta. split; [reflexivity|].
  eexists. split; [apply scrape_collected|]. split.
  - apply collected_Forall.
    + intros v. apply list_elem_of_here.
    + intros server _. apply list_elem_of_further, list_elem_of_here.
    + intros pid i arg. do 2 apply list_elem_of_further. apply list_elem_of_here.
  - apply collected_Forall; reflexivity.
Qed.

(** C1 as the specification words it fails: the one sample of a scrape
    that cannot reach the admin server is of the series
    [weblogic_admin_server_up], which is none of [admin_up], [server_up],
    [process_arg]. *)
Lemma C1_spec_names_counterexample :
  exists samples,
    scrape Sample.collector Sample.unreachable = Some samples /\
    ~ named_within spec_metric_output samples.
Proof.
  eexists. split; [reflexivity|].
  intros Hall. apply Forall_cons in Hall. destruct Hall as [Hin _].
  apply list_elem_of_In in Hin. cbn in Hin.
  destruct Hin as [Heq|[Heq|[Heq|[]]]]; discriminate Heq.
Qed.

(** ** The authenticated client *)

(** C8. Whatever the request, the transport of the collector's client
    hands it to the default transport with the same method and URL and
    with the header [Authorization] set to the single value ["Basic "]
    followed by the base64 encoding of [username:password], the
    credentials the collector was built with; the other headers are as
    they were. *)
Theorem C8_basic_auth_header (url user pass name : string) (w : World)
    (req : http.Request) :
  let c := NewProcessCollector url user pass name in
  exists req',
    Transport (client c) w req = http_DefaultTransport w req' /\
    http.Header req' !! "Authorization" =
      Some ["Basic " +:+
            base64.StdEncoding_EncodeToString (bytes_of_string (user +:+ ":" +:+ pass))] /\
    http.Method req' = http.Method req /\
    http.URL req' = http.URL req /\
    delete "Authorization" (http.Header req') = delete "Authorization" (http.Header req).
Proof.
  cbv zeta. eexists. split; [reflexivity|]. cbn.
  split; [apply lookup_insert_eq|].
  repeat split. apply delete_insert_eq.
Qed.


(** ** Decimal rendering *)

Lemma to_int_nonnil (n : Z) :
  Z.to_int n <> Decimal.Pos Decimal.Nil /\ Z.to_int n <> Decimal.Neg Decimal.Nil.
Proof.
  destruct n as [|p|p]; cbn; split; try discriminate; intros H; injection H as H;
    apply (DecimalPos.Unsigned.to_uint_nonnil p H).
Qed.

(** Reading the rendering back gives the number. *)
Lemma Sprintf_d_parse (n : Z) :
  NilZero.int_of_string (Sprintf_d n) = Some (Z.to_int n).
Proof. unfold Sprintf_d. apply NilZero.isi; apply to_int_nonnil. Qed.

Lemma Sprintf_d_inj (a b : Z) : Sprintf_d a = Sprintf_d b -> a = b.
Proof.
  intros H. apply (f_equal NilZero.int_of_string) in H.
  rewrite !Sprintf_d_parse in H. injection H as H. apply DecimalZ.to_int_inj, H.
Qed.

Example Sprintf_d_samples :
  Sprintf_d 0 = "0" /\ Sprintf_d 7 = "7" /\ Sprintf_d 4242 = "4242" /\
  Sprintf_d 2147483647 = "2147483647" /\ Sprintf_d (-12) = "-12".
Proof. repeat split. Qed.

(** Two positions of an argument vector never share an [index] label. *)
Lemma index_labels_distinct (i j : nat) :
  i <> j -> Sprintf_d (Z.of_nat i) <> Sprintf_d (Z.of_nat j).
Proof. intros Hne Heq. apply Sprintf_d_inj in Heq. lia. Qed.

(** ** base64 *)

(** The test vectors of RFC 4648, section 10. *)
Example Encode_rfc4648 :
  map (fun s => base64.StdEncoding_EncodeToString (bytes_of_string s))
    [""; "f"; "fo"; "foo"; "foob"; "fooba"; "foobar"] =
  [""; "Zg=="; "Zm8="; "Zm9v"; "Zm9vYg=="; "Zm9vYmE="; "Zm9vYmFy"].
Proof. reflexivity. Qed.

Lemma list_ind3 {A : Type} (P : list A -> Prop) :
  P [] -> (forall a, P [a]) -> (forall a b, P [a; b]) ->
  (forall a b c rest, P rest -> P (a :: b :: c :: rest)) ->
  forall l, P l.
Proof.
  intros H0 H1 H2 H3. fix IH 1.
  intros [|a [|b [|c rest]]]; [exact H0 | apply H1 | apply H2 | apply H3, IH].
Qed.

(** Four characters for every three bytes, the last group filled up. *)
Lemma Encode_length (src : list Z) :
  Z.of_nat (String.length (base64.Encode src)) = 4 * ((Z.of_nat (length src) + 2) / 3).
Proof.
  induction src as [|a|a b|a b c rest IH] using list_ind3; try reflexivity.
  cbn [base64.Encode String.length length]. cbv zeta. cbn [String.length].
  rewrite !Nat2Z.inj_succ, IH.
  replace (Z.succ (Z.succ (Z.succ (Z.of_nat (length rest)))) + 2)
    with (Z.of_nat (length rest) + 2 + 1 * 3) by lia.
  rewrite Z.div_add by lia. lia.
Qed.

(** Or-ing in the low bits of a shifted value adds them. *)
Lemma lor_shiftl_add (x y n : Z) :
  0 <= n -> 0 <= y < 2 ^ n -> Z.lor (Z.shiftl x n) y = x * 2 ^ n + y.
Proof.
  intros Hn Hy. rewrite <- Z.shiftl_mul_pow2 by exact Hn.
  rewrite <- Z.add_lor_land.
  assert (Z.land (Z.shiftl x n) y = 0) as ->; [|lia].
  apply Z.bits_inj'. intros m Hm. rewrite Z.land_spec, Z.bits_0.
  destruct (Z.lt_ge_cases m n) as [Hlt|Hge].
  - rewrite Z.shiftl_spec_low by exact Hlt. reflexivity.
  - destruct (Z.eq_dec y 0) as [->|Hy0].
    + rewrite Z.bits_0. apply andb_false_r.
    + rewrite (Z.bits_above_log2 y m); [apply andb_false_r | lia |].
      apply Z.log2_lt_pow2; [lia|].
      apply Z.lt_le_trans with (2 ^ n); [lia|].
      apply Z.pow_le_mono_r; lia.
Qed.

Lemma land_63 (x : Z) : Z.land x 63 = x mod 64.
Proof. change 63 with (Z.ones 6). rewrite Z.land_ones by lia. reflexivity. Qed.

(** The 24-bit value of a group of three bytes. *)
Lemma group_value (a b c : Z) :
  0 <= a < 256 -> 0 <= b < 256 -> 0 <= c < 256 ->
  Z.lor (Z.lor (Z.shiftl a 16) (Z.shiftl b 8)) c = a * 65536 + b * 256 + c.
Proof.
  intros Ha Hb Hc.
  assert (Hinner : Z.lor (Z.shiftl a 16) (Z.shiftl b 8) = Z.shiftl (a * 256 + b) 8).
  { rewrite (Z.shiftl_mul_pow2 b 8), (Z.shiftl_mul_pow2 _ 8) by lia.
    rewrite lor_shiftl_add by lia. lia. }
  rewrite Hinner, lor_shiftl_add by lia. lia.
Qed.

(** The four digits cut from a group are digits, and put together again
    they give the three bytes. *)
Lemma group_digits (a b c : Z) :
  0 <= a < 256 -> 0 <= b < 256 -> 0 <= c < 256 ->
  let val := Z.lor (Z.lor (Z.shiftl a 16) (Z.shiftl b 8)) c in
  let v0 := Z.land (Z.shiftr val 18) 63 in
  let v1 := Z.land (Z.shiftr val 12) 63 in
  let v2 := Z.land (Z.shiftr val 6) 63 in
  let v3 := Z.land val 63 in
  (0 <= v0 < 64 /\ 0 <= v1 < 64 /\ 0 <= v2 < 64 /\ 0 <= v3 < 64) /\
  v0 * 4 + v1 / 16 = a /\ v1 mod 16 * 16 + v2 / 4 = b /\ v2 mod 4 * 64 + v3 = c.
Proof.
  intros Ha Hb Hc. cbv zeta. rewrite group_value by assumption.
  rewrite !land_63, !Z.shiftr_div_pow2 by lia.
  change (2 ^ 18) with 262144. change (2 ^ 12) with 4096. change (2 ^ 6) with 64.
  Z.div_mod_to_equations. lia.
Qed.

(** Every digit has its own character, none of them the padding. *)
Lemma digit_of_encode_at (i : Z) :
  0 <= i < 64 ->
  base64.digit_of (base64.encode_at i) = Some i /\
  Ascii.eqb (base64.encode_at i) base64.StdPadding = false.
Proof.
  intros Hi.
  assert (Hall : forallb (fun n =>
            match base64.digit_of (base64.encode_at (Z.of_nat n)) with
            | Some j => (j =? Z.of_nat n)
            | None => false
            end
            && negb (Ascii.eqb (base64.encode_at (Z.of_nat n)) base64.StdPadding))
          (seq 0 64) = true) by (vm_compute; reflexivity).
  rewrite forallb_forall in Hall. specialize (Hall (Z.to_nat i)).
  rewrite in_seq, Z2Nat.id in Hall by lia. specialize (Hall ltac:(lia)).
  apply andb_prop in Hall. destruct Hall as [H1 H2].
  destruct (base64.digit_of _) as [j|]; [|discriminate].
  apply Z.eqb_eq in H1. subst j. split; [reflexivity|].
  apply negb_true_iff in H2. exact H2.
Qed.

Lemma Decode_group e0 e1 e2 e3 rest v0 v1 v2 v3 bytes :
  base64.digit_of e0 = Some v0 -> base64.digit_of e1 = Some v1 ->
  base64.digit_of e2 = Some v2 -> base64.digit_of e3 = Some v3 ->
  Ascii.eqb e3 base64.StdPadding = false ->
  base64.Decode rest = Some bytes ->
  base64.Decode (String e0 (String e1 (String e2 (String e3 rest)))) =
    Some ((v0 * 4 + v1 / 16) :: (v1 mod 16 * 16 + v2 / 4) :: (v2 mod 4 * 64 + v3) :: bytes).
Proof.
  intros H0 H1 H2 H3 Hpad Hrest. cbn [base64.Decode].
  rewrite H0, H1, H2, H3, Hpad, Hrest. reflexivity.
Qed.

(** The encoding loses nothing: read back, it gives the bytes. *)
Theorem Decode_Encode (src : list Z) :
  Forall (fun b => 0 <= b < 256) src ->
  base64.Decode (base64.Encode src) = Some src.
Proof.
  induction src as [|a|a b|a b c rest IH] using list_ind3; intros Hsrc.
  - reflexivity.
  - apply Forall_cons in Hsrc. destruct Hsrc as [Ha _].
    cbn [base64.Encode]. cbv zeta.
    replace (Z.shiftl a 16) with (Z.lor (Z.lor (Z.shiftl a 16) (Z.shiftl 0 8)) 0)
      by (rewrite Z.shiftl_0_l, !Z.lor_0_r; reflexivity).
    destruct (group_digits a 0 0 Ha ltac:(lia) ltac:(lia))
      as ((R0 & R1 & _ & _) & E0 & _ & _).
    cbn [base64.Decode].
    rewrite (proj1 (digit_of_encode_at _ R0)), (proj1 (digit_of_encode_at _ R1)).
    rewrite E0. reflexivity.
  - apply Forall_cons in Hsrc. destruct Hsrc as [Ha Hsrc].
    apply Forall_cons in Hsrc. destruct Hsrc as [Hb _].
    cbn [base64.Encode]. cbv zeta.
    replace (Z.lor (Z.shiftl a 16) (Z.shiftl b 8))
      with (Z.lor (Z.lor (Z.shiftl a 16) (Z.shiftl b 8)) 0)
      by (rewrite Z.lor_0_r; reflexivity).
    destruct (group_digits a b 0 Ha Hb ltac:(lia))
      as ((R0 & R1 & R2 & _) & E0 & E1 & _).
    cbn [base64.Decode].
    rewrite (proj1 (digit_of_encode_at _ R0)), (proj1 (digit_of_encode_at _ R1)).
    rewrite (proj2 (digit_of_encode_at _ R2)), (proj1 (digit_of_encode_at _ R2)).
    rewrite E0, E1. reflexivity.
  - apply Forall_cons in Hsrc. destruct Hsrc as [Ha Hsrc].
    apply Forall_cons in Hsrc. destruct Hsrc as [Hb Hsrc].
    apply Forall_cons in Hsrc. destruct Hsrc as [Hc Hsrc].
    cbn [base64.Encode]. cbv zeta.
    destruct (group_digits a b c Ha Hb Hc) as ((R0 & R1 & R2 & R3) & E0 & E1 & E2).
    rewrite (Decode_group _ _ _ _ _ _ _ _ _ rest
               (proj1 (digit_of_encode_at _ R0)) (proj1 (digit_of_encode_at _ R1))
               (proj1 (digit_of_encode_at _ R2)) (proj1 (digit_of_encode_at _ R3))
               (proj2 (digit_of_encode_at _ R3)) (IH Hsrc)).
    rewrite E0, E1, E2. reflexivity.
Qed.

Lemma bytes_of_string_range (s : string) :
  Forall (fun b => 0 <= b < 256) (bytes_of_string s).
Proof.
  unfold bytes_of_string. apply Forall_map, Forall_forall. intros a _.
  pose proof (N_ascii_bounded a). cbn. lia.
Qed.

(** The header value determines the credentials it was made from. *)
Corollary credentials_read_back (user pass : string) :
  base64.Decode
    (base64.StdEncoding_EncodeToString (bytes_of_string (user +:+ ":" +:+ pass))) =
  Some (bytes_of_string (user +:+ ":" +:+ pass)).
Proof. apply Decode_Encode, bytes_of_string_range. Qed.

(** * Further properties of the collector *)

Section scrape_laws.
Variables url user pass name : string.
Local Abbreviation c := (NewProcessCollector url user pass name).

Lemma first_named_found items :
  (exists x, x ∈ items /\ Name x = name) <->
  (exists server, first_named name items = Some server).
Proof.
  split.
  - intros Hsome.
    destruct (first_named_split name items Hsome)
      as (before & server & after & -> & Hbefore & Hserver).
    exists server. apply first_named_at; assumption.
  - intros (server & Hfind). apply List.find_some in Hfind.
    destruct Hfind as [Hin Hname]. exists server.
    split; [apply list_elem_of_In, Hin | apply String.eqb_eq, Hname].
Qed.

End scrape_laws.

(** X2. The samples of a scrape are sent series by series: [admin_up]
    first, then the [server_up] sample if there is one, then every
    [process_arg] sample. *)
Theorem Collect_order (url user pass name : string) (w : World) :
  let c := NewProcessCollector url user pass name in
  exists first servers args,
    scrape c w = Some (first :: servers ++ args) /\
    series first = "weblogic_admin_server_up" /\
    Forall (fun m => series m = "weblogic_server_up") servers /\
    (length servers <= 1)%nat /\
    Forall (fun m => series m = "process_arg") args.
Proof.
  cbv zeta. rewrite scrape_collected. unfold collected.
  destruct (fetch _ w) as [resp|e].
  2:{ exists (admin_up_sample (NewProcessCollector url user pass name) f64_0), [], [].
      repeat split; [constructor | cbn; lia | constructor]. }
  destruct (http.StatusCode resp =? 200).
  2:{ exists (admin_up_sample (NewProcessCollector url user pass name) f64_0), [], [].
      repeat split; [constructor | cbn; lia | constructor]. }
  destruct (json_Decode w (http.Body resp)) as [runtimes|e].
  2:{ exists (admin_up_sample (NewProcessCollector url user pass name) f64_1), [], [].
      repeat split; [constructor | cbn; lia | constructor]. }
  eexists _, _, _. split; [reflexivity|]. split; [reflexivity|].
  split; [|split].
  - destruct (first_named _ _); repeat constructor.
  - destruct (first_named _ _); cbn; lia.
  - destruct (process_Processes w); [apply table_sent_series | constructor].
Qed.

(** X3. Every sample of every scrape is built on one of the three
    descriptors [Describe] announces, and these have three different
    names. *)
Theorem Collect_within_Describe (url user pass name : string) (w : World) :
  let c := NewProcessCollector url user pass name in
  NoDup (map prometheus.fqName (Describe c)) /\
  exists samples,
    scrape c w = Some samples /\
    Forall (fun m => prometheus.desc m ∈ Describe c) samples.
Proof.
  cbv zeta. split.
  - cbn. repeat (apply NoDup_cons; split;
                 [rewrite list_elem_of_In; cbn; intuition discriminate|]).
    apply NoDup_nil_2.
  - eexists. split; [apply scrape_collected|].
    apply collected_Forall.
    + intros v. apply list_elem_of_here.
    + intros server _. apply list_elem_of_further, list_elem_of_here.
    + intros pid i arg. do 2 apply list_elem_of_further. apply list_elem_of_here.
Qed.


Section scrape_invariants.
Variables url user pass name : string.
Local Abbreviation c := (NewProcessCollector url user pass name).

Lemma collected_Forall_values (P : prometheus.Metric -> Prop) w :
  P (admin_up_sample c f64_0) ->
  P (admin_up_sample c f64_1) ->
  (forall server, Name server = name -> P (server_up_sample c server)) ->
  (forall pid i arg, P (process_arg_sample c pid i arg)) ->
  Forall P (collected c w).
Proof.
  intros Hdown Hup Hserver Hargs. unfold collected.
  destruct (fetch c w) as [resp|e]; [|repeat constructor; exact Hdown].
  destruct (http.StatusCode resp =? 200); [|repeat constructor; exact Hdown].
  constructor; [exact Hup|].
  destruct (json_Decode w (http.Body resp)) as [runtimes|e]; [|constructor].
  apply Forall_app. split.
  - destruct (first_named _ _) as [server|] eqn:Hfind; [|constructor].
    repeat constructor. apply Hserver.
    apply List.find_some in Hfind. destruct Hfind as [_ Hname].
    apply String.eqb_eq in Hname. exact Hname.
  - destruct (process_Processes w) as [processes|e]; [|constructor].
    eapply sublist_Forall; [apply table_sent_sublist|].
    apply process_table_Forall. exact Hargs.
Qed.

End scrape_invariants.

(** X4. Every sample is a gauge whose value is 0 or 1.  A [server_up]
    sample carries the configured server name as its one label; a
    [process_arg] sample has value 1 and the configured server name as
    its first label. *)
Theorem Collect_gauges (url user pass name : string) (w : World) :
  let c := NewProcessCollector url user pass name in
  exists samples,
    scrape c w = Some samples /\
    Forall (fun m =>
              prometheus.valType m = prometheus.GaugeValue /\
              (prometheus.val m = f64_0 \/ prometheus.val m = f64_1) /\
              (series m = "weblogic_server_up" -> prometheus.labelValues m = [name]) /\
              (series m = "process_arg" ->
               prometheus.val m = f64_1 /\ prometheus.labelValues m !! 0%nat = Some name))
      samples.
Proof.
  cbv zeta. eexists. split; [apply scrape_collected|].
  apply collected_Forall_values.
  - split; [reflexivity|]. split; [left; reflexivity|]. split; discriminate.
  - split; [reflexivity|]. split; [right; reflexivity|]. split; discriminate.
  - intros server Hname. split; [reflexivity|]. split.
    + cbn. destruct (String.eqb _ _); [right | left]; reflexivity.
    + split; [intros _; cbn; rewrite Hname; reflexivity | discriminate].
  - intros pid i arg. split; [reflexivity|]. split; [right; reflexivity|].
    split; [discriminate | intros _; split; reflexivity].
Qed.

(** X5. When the process table cannot be read, after a decoded 200, the
    scrape keeps what it has sent ([admin_up] = 1 and the [server_up]
    sample if the server is listed), sends no [process_arg] sample, and
    ends its log with the failure. *)
Theorem Collect_processes_unavailable (url user pass name : string) (w : World)
    (resp : http.Response) (runtimes : ServerRuntimesResponse) (e : error) :
  let c := NewProcessCollector url user pass name in
  fetch c w = Val resp ->
  http.StatusCode resp = 200 ->
  json_Decode w (http.Body resp) = Val runtimes ->
  process_Processes w = Err e ->
  exists o,
    Collect c w start = Ok tt o /\
    Some (ch o) = scrape c (with_processes w (Val [])) /\
    samples_of "process_arg" (ch o) = [] /\
    last (logged o) = Some ("Failed to retrieve processes: " +:+ e).
Proof.
  cbv zeta. intros Hget Hcode Hdecode Htable.
  eexists. split.
  { apply Collect_returns. unfold scrape_panics.
    rewrite Hget, Hcode, Hdecode, Htable. reflexivity. }
  cbn [ch logged]. rewrite scrape_collected.
  rewrite (collected_decoded _ _ _ _ w resp runtimes Hget Hcode Hdecode).
  rewrite (collected_decoded _ _ _ _ (with_processes w (Val [])) resp runtimes
             Hget Hcode Hdecode).
  unfold collected_log. rewrite Hget, Hcode, Hdecode, Htable.
  cbn [process_Processes with_processes table_sent].
  split; [reflexivity|]. split.
  - rewrite app_nil_r. destruct (first_named _ _); reflexivity.
  - destruct (first_named _ _); reflexivity.
Qed.

Lemma Collect_processes_unavailable_witness :
  exists o,
    Collect Sample.collector
      (with_processes Sample.healthy (Err "open /proc: permission denied")) start
      = Ok tt o /\
    samples_of "process_arg" (ch o) = [] /\
    last (logged o) =
      Some "Failed to retrieve processes: open /proc: permission denied".
Proof.
  destruct (Collect_processes_unavailable
              "http://localhost:7001" "weblogic" "welcome1" "AdminServer"
              (with_processes Sample.healthy (Err "open /proc: permission denied"))
              {| http.Status := "200 OK"; http.StatusCode := 200; http.Body := "{...}" |}
              {| Body := {| Items := Sample.domain |} |}
              "open /proc: permission denied")
    as (o & Hrun & _ & Hnone & Hlast).
  - reflexivity.
  - reflexivity.
  - reflexivity.
  - reflexivity.
  - exists o. split; [exact Hrun|]. split; [exact Hnone | exact Hlast].
Defined.

Section skipping.
Variables url user pass name : string.
Local Abbreviation c := (NewProcessCollector url user pass name).

Lemma process_sent_skipped p :
  (forall args, process.CmdlineSlice p = Val args ->
                ("-Dweblogic.Name=" +:+ name) ∉ args) ->
  process_sent c p = [] /\ process_panics c p = false.
Proof.
  intros Hskip. unfold process_sent, process_panics.
  destruct (process.CmdlineSlice p) as [args|e]; [|split; reflexivity].
  cbn [serverName NewProcessCollector].
  rewrite bool_decide_eq_false_2 by (apply Hskip; reflexivity). split; reflexivity.
Qed.

(** The samples, the lines and the end of a scrape look at the process
    table only through what the loop sends for it and whether it panics
    in it. *)
Lemma collected_same_processes w ps ps' :
  process_Processes w = Val ps ->
  table_sent c ps = table_sent c ps' ->
  table_panics c ps = table_panics c ps' ->
  Collect c w start = Collect c (with_processes w (Val ps')) start.
Proof.
  intros Htable Hsent Hpanics. rewrite !Collect_run.
  unfold collected, collected_log, scrape_panics.
  rewrite (fetch_with_processes url user pass name w (Val ps')).
  cbn [json_Decode process_Processes with_processes].
  rewrite Htable, Hsent, Hpanics. reflexivity.
Qed.

End skipping.

(** X6. A process whose argument vector cannot be read, or holds no
    argument equal to the marker token, is passed over in silence: with
    or without it in the table, the scrape sends the same samples and
    logs the same lines. *)
Theorem Collect_skips_process (url user pass name : string) (w : World)
    (before after : list process.Process) (p : process.Process) :
  let c := NewProcessCollector url user pass name in
  process_Processes w = Val (before ++ p :: after) ->
  (forall args, process.CmdlineSlice p = Val args ->
                ("-Dweblogic.Name=" +:+ name) ∉ args) ->
  Collect c w start = Collect c (with_processes w (Val (before ++ after))) start.
Proof.
  cbv zeta. intros Htable Hskip.
  destruct (process_sent_skipped url user pass name p Hskip) as [Hsent Hpanics].
  apply (collected_same_processes url user pass name w _ (before ++ after) Htable).
  - rewrite (proj1 (table_sent_app url user pass name before (p :: after))).
    rewrite (proj1 (table_sent_app url user pass name before after)).
    cbn [table_sent]. rewrite Hsent, Hpanics. reflexivity.
  - rewrite (proj2 (table_sent_app url user pass name before (p :: after))).
    rewrite (proj2 (table_sent_app url user pass name before after)).
    cbn [table_panics]. rewrite Hpanics. reflexivity.
Qed.

Lemma Collect_skips_process_witness :
  Collect Sample.collector Sample.healthy start =
  Collect Sample.collector
    (with_processes Sample.healthy
       (Val [ {| process.Pid := 1; process.CmdlineSlice := Val ["/sbin/init"] |};
              Sample.java;
              {| process.Pid := 4300;
                 process.CmdlineSlice :=
                   Val ["java"; "-Dweblogic.Name=ms1"; "weblogic.Server"] |} ]))
    start.
Proof.
  apply (Collect_skips_process
           "http://localhost:7001" "weblogic" "welcome1" "AdminServer"
           Sample.healthy
           [ {| process.Pid := 1; process.CmdlineSlice := Val ["/sbin/init"] |} ]
           [ Sample.java;
             {| process.Pid := 4300;
                process.CmdlineSlice :=
                  Val ["java"; "-Dweblogic.Name=ms1"; "weblogic.Server"] |} ]
           {| process.Pid := 77; process.CmdlineSlice := Err "permission denied" |}).
  - reflexivity.
  - intros args Hargs. discriminate Hargs.
Defined.

(** X7. A scrape logs nothing exactly when all it asked for was
    answered: the GET with 200, the body decodable, the configured server
    among the items, and the process table readable.  In any case it logs
    at most two lines.  This holds of what the scrape has logged when it
    stops, whether it returns or panics. *)
Theorem Collect_quiet_iff_healthy (url user pass name : string) (w : World) :
  let c := NewProcessCollector url user pass name in
  exists o,
    output_of (Collect c w start) = o /\
    (length (logged o) <= 2)%nat /\
    (logged o = [] <->
     exists resp runtimes processes,
       fetch c w = Val resp /\
       http.StatusCode resp = 200 /\
       json_Decode w (http.Body resp) = Val runtimes /\
       (exists x, x ∈ Items (Body runtimes) /\ Name x = name) /\
       process_Processes w = Val processes).
Proof.
  cbv zeta. eexists. split; [reflexivity|]. rewrite Collect_run.
  assert (Hout : forall b o, output_of (finish b o) = o) by (intros [] o; reflexivity).
  rewrite Hout. cbn [logged].
  unfold collected_log. cbn [serverName NewProcessCollector].
  destruct (fetch _ w) as [resp|e].
  2:{ split; [cbn; lia|]. split; [discriminate|].
      intros (? & ? & ? & Hget & _). discriminate Hget. }
  destruct (Z.eqb_spec (http.StatusCode resp) 200) as [Hcode|Hcode].
  2:{ split; [cbn; lia|]. split; [discriminate|].
      intros (? & ? & ? & Hget & Hcode' & _). injection Hget as <-. contradiction. }
  destruct (json_Decode w (http.Body resp)) as [runtimes|e] eqn:Hdecode.
  2:{ split; [cbn; lia|]. split; [discriminate|].
      intros (? & ? & ? & Hget & _ & Hdecode' & _). injection Hget as <-.
      rewrite Hdecode in Hdecode'. discriminate Hdecode'. }
  pose proof (first_named_found name (Items (Body runtimes))) as Hfound.
  destruct (first_named name (Items (Body runtimes))) as [server|].
  - destruct (process_Processes w) as [processes|e].
    + split; [cbn; lia|]. split; [|reflexivity].
      intros _. exists resp, runtimes, processes.
      repeat split; try assumption. apply Hfound. exists server. reflexivity.
    + split; [cbn; lia|]. split; [discriminate|].
      intros (? & ? & ? & _ & _ & _ & _ & Htable). discriminate Htable.
  - split; [destruct (process_Processes w); cbn; lia|].
    split; [discriminate|].
    intros (? & runtimes' & ? & Hget & _ & Hdecode' & Hsome & _).
    injection Hget as <-. rewrite Hdecode in Hdecode'. injection Hdecode' as <-.
    apply Hfound in Hsome. destruct Hsome as (? & Hsome). discriminate Hsome.
Qed.

Section cardinality.
Variables url user pass name : string.
Local Abbreviation c := (NewProcessCollector url user pass name).

Lemma process_table_length processes :
  (length (flat_map (process_arg_samples c) processes) <=
   list_sum (map (fun p => match process.CmdlineSlice p with
                           | Val cmdline => length cmdline
                           | Err _ => 0%nat
                           end) processes))%nat.
Proof.
  induction processes as [|p rest IH]; cbn [flat_map map]; [cbn; lia|].
  change (list_sum (?x :: ?l)) with (x + list_sum l)%nat.
  rewrite length_app.
  assert (length (process_arg_samples c p) <=
          match process.CmdlineSlice p with
          | Val cmdline => length cmdline
          | Err _ => 0%nat
          end)%nat; [|lia].
  unfold process_arg_samples.
  destruct (process.CmdlineSlice p) as [cmdline|e]; [|cbn; lia].
  case_bool_decide; [rewrite length_imap; lia | cbn; lia].
Qed.

(** The samples of one process differ pairwise in their [index] label. *)
Lemma process_arg_samples_NoDup p :
  NoDup (map label_key (process_arg_samples c p)).
Proof.
  unfold process_arg_samples.
  destruct (process.CmdlineSlice p) as [cmdline|e]; [|apply NoDup_nil_2].
  case_bool_decide; [|apply NoDup_nil_2].
  apply NoDup_alt. intros i j k Hi Hj.
  change (map label_key ?l) with (label_key <$> l) in Hi, Hj.
  rewrite list_lookup_fmap, list_lookup_imap in Hi, Hj.
  destruct (cmdline !! i) as [x|]; [|discriminate Hi].
  destruct (cmdline !! j) as [y|]; [|discriminate Hj].
  cbn in Hi, Hj. rewrite <- Hi in Hj. injection Hj as Hindex _.
  apply Sprintf_d_inj in Hindex. lia.
Qed.

(** Each of them carries the process id as its second label. *)
Lemma process_arg_samples_pid p :
  Forall (fun k => k.2 !! 1%nat = Some (Sprintf_d (process.Pid p)))
    (map label_key (process_arg_samples c p)).
Proof.
  unfold process_arg_samples.
  destruct (process.CmdlineSlice p) as [cmdline|e]; [|constructor].
  case_bool_decide; [|constructor].
  apply Forall_lookup. intros i k Hk.
  change (map label_key ?l) with (label_key <$> l) in Hk.
  rewrite list_lookup_fmap, list_lookup_imap in Hk.
  destruct (cmdline !! i) as [x|]; [|discriminate Hk].
  injection Hk as <-. reflexivity.
Qed.

Lemma process_table_NoDup processes :
  NoDup (map process.Pid processes) ->
  NoDup (map label_key (flat_map (process_arg_samples c) processes)) /\
  Forall (fun k => exists p, p ∈ processes /\
                   k.2 !! 1%nat = Some (Sprintf_d (process.Pid p)))
    (map label_key (flat_map (process_arg_samples c) processes)).
Proof.
  induction processes as [|p rest IH]; intros Hpids.
  - split; [apply NoDup_nil_2 | constructor].
  - cbn [map] in Hpids. apply NoDup_cons in Hpids. destruct Hpids as [Hfresh Hpids].
    destruct (IH Hpids) as [IHdup IHpid]. cbn [flat_map]. rewrite map_app.
    split.
    + apply NoDup_app. split; [apply process_arg_samples_NoDup|].
      split; [|exact IHdup].
      intros k Hk Hk'.
      pose proof (process_arg_samples_pid p) as Hp.
      rewrite Forall_forall in Hp, IHpid.
      specialize (Hp k Hk). destruct (IHpid k Hk') as (q & Hq & Hqpid).
      rewrite Hp in Hqpid. injection Hqpid as Heq. apply Sprintf_d_inj in Heq.
      apply Hfresh. rewrite Heq.
      change (map process.Pid rest) with (process.Pid <$> rest).
      apply list_elem_of_fmap_2, Hq.
    + apply Forall_app. split.
      * eapply Forall_impl; [apply process_arg_samples_pid|].
        intros k Hk. exists p. split; [apply list_elem_of_here | exact Hk].
      * eapply Forall_impl; [exact IHpid|].
        intros k (q & Hq & Hk). exists q.
        split; [apply list_elem_of_further, Hq | exact Hk].
Qed.

End cardinality.

(** X9. A scrape sends at most two samples more than the readable
    processes of the table have arguments. *)
Theorem Collect_cardinality (url user pass name : string) (w : World) :
  let c := NewProcessCollector url user pass name in
  exists samples,
    scrape c w = Some samples /\
    (length samples <= 2 + total_args w)%nat.
Proof.
  cbv zeta. eexists. split; [apply scrape_collected|].
  unfold collected, total_args.
  destruct (fetch _ w) as [resp|e]; [|cbn; lia].
  destruct (http.StatusCode resp =? 200); [|cbn; lia].
  destruct (json_Decode w (http.Body resp)) as [runtimes|e]; [|cbn; lia].
  cbn [length]. rewrite length_app.
  assert (length match first_named
                         (serverName (NewProcessCollector url user pass name))
                         (Items (Body runtimes)) with
                 | Some server =>
                     [server_up_sample (NewProcessCollector url user pass name) server]
                 | None => []
                 end <= 1)%nat by (destruct (first_named _ _); cbn; lia).
  destruct (process_Processes w) as [processes|e]; [|cbn [length]; lia].
  pose proof (process_table_length url user pass name processes).
  pose proof (sublist_length _ _ (table_sent_sublist url user pass name processes)).
  lia.
Qed.

(** X10. When the processes of the table have pairwise different ids, no
    two samples of a scrape are the same time series: they differ in the
    series or in a label value. *)
Theorem Collect_no_duplicate_series (url user pass name : string) (w : World) :
  let c := NewProcessCollector url user pass name in
  (forall processes, process_Processes w = Val processes ->
                     NoDup (map process.Pid processes)) ->
  exists samples,
    scrape c w = Some samples /\
    NoDup (map label_key samples).
Proof.
  cbv zeta. intros Hpids. eexists. split; [apply scrape_collected|].
  unfold collected.
  destruct (fetch _ w) as [resp|e]; [|apply NoDup_singleton].
  destruct (http.StatusCode resp =? 200); [|apply NoDup_singleton].
  destruct (json_Decode w (http.Body resp)) as [runtimes|e]; [|apply NoDup_singleton].
  assert (Hargs : NoDup (map label_key
                          match process_Processes w with
                          | Val processes =>
                              table_sent (NewProcessCollector url user pass name)
                                processes
                          | Err _ => []
                          end) /\
                  Forall (fun k => k.1 = "process_arg")
                    (map label_key
                       match process_Processes w with
                       | Val processes =>
                           table_sent (NewProcessCollector url user pass name)
                             processes
                       | Err _ => []
                       end)).
  { destruct (process_Processes w) as [processes|e];
      [|split; [apply NoDup_nil_2 | constructor]].
    split.
    - assert (Hsub : map label_key
                       (table_sent (NewProcessCollector url user pass name) processes)
                     `sublist_of`
                     map label_key
                       (flat_map (process_arg_samples
                                    (NewProcessCollector url user pass name))
                          processes)).
      { change (map label_key ?l) with (label_key <$> l).
        apply fmap_sublist, table_sent_sublist. }
      refine (sublist_NoDup _ _ _ Hsub).
      apply process_table_NoDup, Hpids; reflexivity.
    - apply Forall_map. apply table_sent_series. }
  destruct Hargs as [Hdup Hseries]. rewrite Forall_forall in Hseries.
  cbn [map]. rewrite map_app. apply NoDup_cons. split.
  - intros Hin. apply elem_of_app in Hin. destruct Hin as [Hin|Hin].
    + destruct (first_named _ _); [|apply elem_of_nil in Hin; exact Hin].
      apply list_elem_of_singleton in Hin. discriminate Hin.
    + apply Hseries in Hin. discriminate Hin.
  - apply NoDup_app. split; [destruct (first_named _ _);
                               [apply NoDup_singleton | apply NoDup_nil_2]|].
    split; [|exact Hdup].
    intros k Hk Hk'. apply Hseries in Hk'.
    destruct (first_named _ _); [|apply elem_of_nil in Hk; exact Hk].
    apply list_elem_of_singleton in Hk. subst k. discriminate Hk'.
Qed.

Lemma Collect_no_duplicate_series_witness :
  exists samples,
    scrape Sample.collector Sample.healthy = Some samples /\
    NoDup (map label_key samples).
Proof.
  apply (Collect_no_duplicate_series
           "http://localhost:7001" "weblogic" "welcome1" "AdminServer" Sample.healthy).
  intros processes Htable. injection Htable as <-.
  cbn. repeat (apply NoDup_cons; split;
               [rewrite list_elem_of_In; cbn; intuition discriminate|]).
  apply NoDup_nil_2.
Defined.

(** X11. For a process whose argument vector holds the marker token,
    the server name and the arguments being valid UTF-8, the loop body
    sends one sample per argument, and the [pid] and [index] labels of a
    sample can be read back: parsed as decimal numbers they give the
    process id and the position of the argument the sample stands for. *)
Theorem Collect_process_labels_read_back (url user pass name : string)
    (p : process.Process) (args : list string) (o : Output) :
  let c := NewProcessCollector url user pass name in
  process.CmdlineSlice p = Val args ->
  ("-Dweblogic.Name=" +:+ name) ∈ args ->
  utf8.ValidString name = true ->
  Forall (fun arg => utf8.ValidString arg = true) args ->
  exists new,
    Collect_process c p o = Ok tt {| ch := ch o ++ new; logged := logged o |} /\
    length new = length args /\
    forall (i : nat) (m : prometheus.Metric),
      new !! i = Some m ->
      exists pid_label index_label arg,
        prometheus.labelValues m = [name; pid_label; index_label; arg] /\
        args !! i = Some arg /\
        Z.of_int <$> NilZero.int_of_string pid_label = Some (process.Pid p) /\
        Z.of_int <$> NilZero.int_of_string index_label = Some (Z.of_nat i).
Proof.
  cbv zeta. intros Hargs Hmarker Hname Hvalid.
  assert (Hp : labels_valid name p).
  { intros args' Hargs' _. rewrite Hargs in Hargs'. injection Hargs' as <-.
    split; assumption. }
  exists (process_arg_samples (NewProcessCollector url user pass name) p).
  split.
  { rewrite Collect_process_run.
    destruct (process_sent_valid url user pass name p Hp) as [-> ->]. reflexivity. }
  split.
  - rewrite (process_arg_samples_length _ _ _ _ _ _ Hargs).
    rewrite bool_decide_eq_true_2 by exact Hmarker. reflexivity.
  - intros i m Hm. unfold process_arg_samples in Hm. rewrite Hargs in Hm.
    cbn [serverName NewProcessCollector] in Hm.
    rewrite bool_decide_eq_true_2 in Hm by exact Hmarker.
    apply list_lookup_imap_Some in Hm. destruct Hm as (arg & Harg & ->).
    exists (Sprintf_d (process.Pid p)), (Sprintf_d (Z.of_nat i)), arg.
    split; [reflexivity|]. split; [exact Harg|].
    rewrite !Sprintf_d_parse. cbn. rewrite !DecimalZ.of_to. split; reflexivity.
Qed.

Lemma Collect_process_labels_witness :
  exists new,
    Collect_process Sample.collector Sample.java start =
      Ok tt {| ch := new; logged := [] |} /\
    length new = 5%nat.
Proof.
  destruct (Collect_process_labels_read_back
              "http://localhost:7001" "weblogic" "welcome1" "AdminServer"
              Sample.java
              ["java"; "-Dweblogic.Name=AdminServer"; "-Xmx1g";
               "-Dweblogic.Name=AdminServer"; "weblogic.Server"]
              start) as (new & Hrun & Hlen & _).
  - reflexivity.
  - apply list_elem_of_further, list_elem_of_here.
  - reflexivity.
  - repeat constructor.
  - exists new. split; [exact Hrun | exact Hlen].
Defined.

(** * Further properties of the authenticated client *)

(** X12. The transport does not pass on an [Authorization] header of the
    caller's: two requests that differ in that header only are forwarded
    as the same request. *)
Theorem RoundTrip_replaces_Authorization (t : basicAuthTransport.t) (w : World)
    (req1 req2 : http.Request) :
  http.Method req1 = http.Method req2 ->
  http.URL req1 = http.URL req2 ->
  delete "Authorization" (http.Header req1) = delete "Authorization" (http.Header req2) ->
  basicAuthTransport.RoundTrip t w req1 = basicAuthTransport.RoundTrip t w req2.
Proof.
  intros Hmethod Hurl Hrest. unfold basicAuthTransport.RoundTrip, http.Header_Set.
  cbv zeta. rewrite Hmethod, Hurl.
  rewrite <- (insert_delete_eq (http.Header req1)), Hrest, insert_delete_eq.
  reflexivity.
Qed.

Lemma RoundTrip_replaces_Authorization_witness :
  basicAuthTransport.RoundTrip
    {| basicAuthTransport.username := "weblogic";
       basicAuthTransport.password := "welcome1" |}
    Sample.healthy
    {| http.Method := "GET"; http.URL := "http://localhost:7001/";
       http.Header := {[ "Authorization" := ["Bearer abc"; "Basic eDp5"] ]} |} =
  basicAuthTransport.RoundTrip
    {| basicAuthTransport.username := "weblogic";
       basicAuthTransport.password := "welcome1" |}
    Sample.healthy
    {| http.Method := "GET"; http.URL := "http://localhost:7001/";
       http.Header := ∅ |}.
Proof.
  apply RoundTrip_replaces_Authorization.
  - reflexivity.
  - reflexivity.
  - cbn [http.Header]. rewrite delete_singleton_eq, delete_empty. reflexivity.
Defined.

Lemma bytes_of_string_inj (s1 s2 : string) :
  bytes_of_string s1 = bytes_of_string s2 -> s1 = s2.
Proof.
  revert s2. induction s1 as [|a1 s1 IH]; intros [|a2 s2] H;
    try discriminate H; [reflexivity|].
  cbn in H. injection H as Ha Hs.
  apply N2Z.inj in Ha. rewrite <- (ascii_N_embedding a1), <- (ascii_N_embedding a2), Ha.
  f_equal. apply IH, Hs.
Qed.

(** X13. Two transports act alike on every request in every world exactly
    when the text [username:password] is the same for both.  (So the
    header tells the joined text, not where the colon between name and
    password is.) *)
Theorem RoundTrip_same_iff_credentials (t1 t2 : basicAuthTransport.t) :
  (forall w req, basicAuthTransport.RoundTrip t1 w req =
                 basicAuthTransport.RoundTrip t2 w req) <->
  basicAuthTransport.username t1 +:+ ":" +:+ basicAuthTransport.password t1 =
  basicAuthTransport.username t2 +:+ ":" +:+ basicAuthTransport.password t2.
Proof.
  split.
  - intros Hsame.
    specialize (Hsame echo_authorization
                  {| http.Method := "GET"; http.URL := ""; http.Header := ∅ |}).
    unfold basicAuthTransport.RoundTrip, http.Header_Set, echo_authorization in Hsame.
    cbv zeta in Hsame. cbn [http_DefaultTransport http.Header http.Header_Get] in Hsame.
    unfold http.Header_Get in Hsame. rewrite !lookup_insert_eq in Hsame.
    injection Hsame as Hheader.
    assert (Hnil : forall s, "" +:+ s = s) by reflexivity.
    rewrite !Hnil in Hheader. clear Hnil.
    apply (f_equal base64.Decode) in Hheader.
    unfold base64.StdEncoding_EncodeToString in Hheader.
    rewrite !Decode_Encode in Hheader by apply bytes_of_string_range.
    injection Hheader as Hbytes. apply bytes_of_string_inj, Hbytes.
  - intros Hjoined w req. unfold basicAuthTransport.RoundTrip. cbv zeta.
    rewrite Hjoined. reflexivity.
Qed.

Lemma RoundTrip_same_iff_credentials_witness :
  basicAuthTransport.RoundTrip
    {| basicAuthTransport.username := "ops:admin";
       basicAuthTransport.password := "secret" |}
    echo_authorization
    {| http.Method := "GET"; http.URL := "/"; http.Header := ∅ |} =
  basicAuthTransport.RoundTrip
    {| basicAuthTransport.username := "ops";
       basicAuthTransport.password := "admin:secret" |}
    echo_authorization
    {| http.Method := "GET"; http.URL := "/"; http.Header := ∅ |}.
Proof.
  apply (proj2 (RoundTrip_same_iff_credentials
                  {| basicAuthTransport.username := "ops:admin";
                     basicAuthTransport.password := "secret" |}
                  {| basicAuthTransport.username := "ops";
                     basicAuthTransport.password := "admin:secret" |})).
  reflexivity.
Defined.

(** * Startup *)







(** * The header, read back *)

(** X17. The value the transport puts in the [Authorization] header is
    ["Basic "] followed by a text of four characters for every three
    bytes of [username:password] (rounded up), and that text, decoded as
    base64, gives the bytes of [username:password] back. *)
Theorem RoundTrip_header_reads_back (t : basicAuthTransport.t) (w : World)
    (req : http.Request) :
  let auth := basicAuthTransport.username t +:+ ":" +:+ basicAuthTransport.password t in
  exists req' encoded,
    basicAuthTransport.RoundTrip t w req = http_DefaultTransport w req' /\
    http.Header req' !! "Authorization" = Some ["Basic " +:+ encoded] /\
    base64.Decode encoded = Some (bytes_of_string auth) /\
    Z.of_nat (String.length encoded) = 4 * ((Z.of_nat (String.length auth) + 2) / 3).
Proof.
  cbv zeta. eexists. eexists. split; [reflexivity|]. cbn [http.Header].
  split; [apply lookup_insert_eq|]. split.
  - apply Decode_Encode, bytes_of_string_range.
  - unfold base64.StdEncoding_EncodeToString. rewrite Encode_length.
    unfold bytes_of_string. rewrite length_map.
    do 4 f_equal.
    generalize (basicAuthTransport.username t +:+ ":" +:+ basicAuthTransport.password t).
    intros s. induction s as [|a s IH]; [reflexivity|]. cbn. f_equal. exact IH.
Qed.

(** * When a scrape panics *)

(** X18. A scrape panics exactly when it gets to the process table and
    the table holds a process, readable and with the marker token among
    its arguments, whose labels are not all valid UTF-8 (the server name
    or one of its arguments is not).  Nothing before the process loop
    panics. *)
Theorem Collect_panics_iff (url user pass name : string) (w : World) :
  let c := NewProcessCollector url user pass name in
  (exists msg o, Collect c w start = Panic msg o) <->
  (exists resp runtimes processes p,
     fetch c w = Val resp /\
     http.StatusCode resp = 200 /\
     json_Decode w (http.Body resp) = Val runtimes /\
     process_Processes w = Val processes /\
     p ∈ processes /\
     ~ labels_valid name p).
Proof.
  cbv zeta. rewrite Collect_run.
  assert (Hfinish : forall o, (exists msg o', finish (scrape_panics
                      (NewProcessCollector url user pass name) w) o = Panic msg o') <->
                    scrape_panics (NewProcessCollector url user pass name) w = true).
  { intros o. destruct (scrape_panics _ w); cbn [finish].
    - split; [reflexivity | intros _; eexists; eexists; reflexivity].
    - split; [intros (? & ? & H); discriminate H | discriminate]. }
  rewrite Hfinish. clear Hfinish. unfold scrape_panics.
  destruct (fetch _ w) as [resp|e].
  2:{ split; [discriminate|]. intros (? & ? & ? & ? & H & _). discriminate H. }
  destruct (Z.eqb_spec (http.StatusCode resp) 200) as [Hcode|Hcode].
  2:{ split; [discriminate|].
      intros (? & ? & ? & ? & H & Hcode' & _). injection H as <-. contradiction. }
  destruct (json_Decode w (http.Body resp)) as [runtimes|e] eqn:Hdecode.
  2:{ split; [discriminate|].
      intros (? & ? & ? & ? & H & _ & Hdecode' & _). injection H as <-.
      rewrite Hdecode in Hdecode'. discriminate Hdecode'. }
  destruct (process_Processes w) as [processes|e].
  2:{ split; [discriminate|].
      intros (? & ? & ? & ? & _ & _ & _ & H & _). discriminate H. }
  split.
  - intros Hpanics.
    assert (Hsome : exists p, p ∈ processes /\ ~ labels_valid name p).
    { induction processes as [|q rest IH]; [discriminate Hpanics|].
      cbn [table_panics] in Hpanics. apply orb_prop in Hpanics.
      destruct Hpanics as [Hq|Hrest].
      - exists q. split; [apply list_elem_of_here|]. intros Hvalid.
        destruct (process_sent_valid url user pass name q Hvalid) as [_ Hno].
        rewrite Hno in Hq. discriminate Hq.
      - destruct (IH Hrest) as (p & Hin & Hp). exists p.
        split; [apply list_elem_of_further, Hin | exact Hp]. }
    destruct Hsome as (p & Hin & Hp).
    exists resp, runtimes, processes, p. repeat split; assumption.
  - intros (resp' & runtimes' & processes' & p & _ & _ & _ & Htable & Hin & Hp).
    injection Htable as <-.
    destruct (table_panics _ processes) eqn:Hpanics; [reflexivity|].
    exfalso. apply Hp.
    pose proof (table_valid_of_no_panic url user pass name processes Hpanics) as Hall.
    rewrite Forall_forall in Hall. apply Hall, Hin.
Qed.
